(** * url-to-image: the per-request screenshot pipeline of [server.js]

    A shallow embedding of the Express handlers [GET /screenshot] and
    [POST /screenshot], of [captureScreenshot], [createBrowser] and
    [isValidUrl], and the properties of the specification that concern them.

    Playwright, sharp and the WHATWG [URL] constructor are not part of the
    repository.  The first two are a [World]: for every call the server makes,
    the promise it gets back.  The [URL] constructor is a section variable.

    The other routes of [server.js], its process handlers, the error-handling
    tests of [test.js] and the calls of [examples/client.js] that reach the
    [GET] handler follow, with Express's path matching and [JSON.stringify]
    as section variables. *)

From Stdlib Require Import ZArith NArith List String Ascii Bool Lia DecimalString.
From Stdlib Require Import Decimal DecimalFacts DecimalPos DecimalN DecimalZ.
Import ListNotations.
Open Scope string_scope.
Open Scope Z_scope.

(** ** JavaScript values *)

Module JS.

(** Numbers that occur here are integers or [NaN]; [Int z] stands for the
    Number nearest to [z], which is [z] itself up to 2^53.  Fractions, and
    integers from 10^21 on (which print with an exponent), are outside the
    model. *)
Inductive num : Type :=
| NaN
| Int (z : Z).

(** What a query parameter or a JSON property can hold: Express hands over
    strings for query parameters ([JUndefined] when absent), a JSON body adds
    numbers, booleans and null.  Arrays and nested objects are outside the
    model. *)
Inductive val : Type :=
| JUndefined
| JNull
| JBool (b : bool)
| JNum (n : num)
| JStr (s : string).

(** ToBoolean. *)
Definition truthy (v : val) : bool :=
  match v with
  | JUndefined | JNull => false
  | JBool b => b
  | JNum NaN => false
  | JNum (Int z) => negb (z =? 0)
  | JStr s => negb (s =? "")%string
  end.

(** [a || b] *)
Definition or_else (a b : val) : val := if truthy a then a else b.

(** A destructuring default [{ x = d } = o]: used only when [o.x] is
    [undefined]. *)
Definition default_to (d v : val) : val :=
  match v with
  | JUndefined => d
  | _ => v
  end.

(** [a === b] against a string literal or the boolean [true]. *)
Definition strict_eq_str (v : val) (lit : string) : bool :=
  match v with
  | JStr s => (s =? lit)%string
  | _ => false
  end.

Definition strict_eq_true (v : val) : bool :=
  match v with
  | JBool true => true
  | _ => false
  end.

(** *** parseInt *)

(** The ASCII members of StrWhiteSpaceChar. *)
Definition isWhiteSpace (c : ascii) : bool :=
  let n := nat_of_ascii c in
  ((9 <=? n) && (n <=? 13))%nat || (n =? 32)%nat.

Fixpoint trimStart (s : string) : string :=
  match s with
  | String c r => if isWhiteSpace c then trimStart r else s
  | EmptyString => s
  end.

Definition digitValue (c : ascii) : option Z :=
  let n := Z.of_nat (nat_of_ascii c) in
  if (48 <=? n) && (n <=? 57) then Some (n - 48)
  else if (97 <=? n) && (n <=? 122) then Some (n - 87)
  else if (65 <=? n) && (n <=? 90) then Some (n - 55)
  else None.

(** The longest prefix of radix-[r] digits, read as a number; [acc] is [None]
    until a digit has been seen. *)
Fixpoint parseDigits (r : Z) (s : string) (acc : option Z) : option Z :=
  match s with
  | EmptyString => acc
  | String c rest =>
      match digitValue c with
      | Some d =>
          if d <? r
          then parseDigits r rest
                 (Some (r * match acc with Some a => a | None => 0 end + d))
          else acc
      | None => acc
      end
  end.

Definition parseIntString (s : string) : num :=
  let s1 := trimStart s in
  let '(neg, s2) :=
    match s1 with
    | String "-" r => (true, r)
    | String "+" r => (false, r)
    | _ => (false, s1)
    end in
  let '(radix, s3) :=
    match s2 with
    | String "0" (String "x" r) => (16, r)
    | String "0" (String "X" r) => (16, r)
    | _ => (10, s2)
    end in
  match parseDigits radix s3 None with
  | None => NaN
  | Some m => Int (if neg then - m else m)
  end.

(** [parseInt(v)] with no radix.  The argument is first turned into a string:
    an integer Number prints as its own digits and reads back as itself;
    "undefined", "null", "true", "false" and "NaN" start with no digit. *)
Definition parseInt (v : val) : num :=
  match v with
  | JStr s => parseIntString s
  | JNum n => n
  | JUndefined | JNull | JBool _ => NaN
  end.

(** [parseInt(v) || d] for a non-zero default [d]. *)
Definition parseInt_or (v : val) (d : Z) : Z :=
  match parseInt v with
  | Int z => if z =? 0 then d else z
  | NaN => d
  end.

Definition decimal (z : Z) : string := NilZero.string_of_int (Z.to_int z).

(** ToString, as a template literal or a header value applies it. *)
Definition toString (v : val) : string :=
  match v with
  | JUndefined => "undefined"
  | JNull => "null"
  | JBool true => "true"
  | JBool false => "false"
  | JNum NaN => "NaN"
  | JNum (Int z) => decimal z
  | JStr s => s
  end.

End JS.
Import JS.


(** ** The outside world *)

Definition bytes : Type := list Byte.byte.

(** The object handed to [page.screenshot]. *)
Record Clip : Type := mkClip {
  clip_x : Z;
  clip_y : Z;
  clip_width : num;
  clip_height : num
}.

Record ScreenshotOptions : Type := mkScreenshotOptions {
  so_type : string;
  so_fullPage : bool;
  so_clip : option Clip
}.

(** How a promise ends: fulfilled or rejected after some milliseconds, or
    never settled. *)
Inductive settle (A : Type) : Type :=
| Fulfils (ms : N) (a : A)
| Rejects (ms : N) (message : string)
| Pending.
Arguments Fulfils {A} ms a.
Arguments Rejects {A} ms message.
Arguments Pending {A}.

(** The promise behind each call the server makes to Playwright and sharp, as
    a function of the arguments of the call. *)
Record World : Type := mkWorld {
  w_launch : settle unit;
  w_newContext : num -> num -> settle unit;
  w_newPage : settle unit;
  w_goto : val -> string -> num -> settle unit;
  w_screenshot : ScreenshotOptions -> settle bytes;
  w_webp : bytes -> num -> settle bytes;
  w_pageClose : settle unit;
  w_contextClose : settle unit;
  w_browserClose : settle unit
}.

(** What the process does that can be observed from outside, in order. *)
Inductive event : Type :=
| ConsoleLog (text : string)
| ConsoleError (text detail : string)
| ConsoleWarn (text detail : string)
| Launch
| NewContext (width height : num) (userAgent : string)
| NewPage
| Goto (url : val) (waitUntil : string) (timeout : num)
| Screenshot (o : ScreenshotOptions)
| Webp (quality : num)
| PageClose
| ContextClose
| BrowserClose.

(** ** Asynchronous code with exceptions *)

(** The state one call of [captureScreenshot] runs in: the time since the call
    started, what has been done so far, and the three locals
    [let browser; let context; let page;], [true] once assigned. *)
Record St : Type := mkSt {
  clock : N;
  trace : list event;
  browser : bool;
  context : bool;
  page : bool
}.

Definition start : St := mkSt 0 [] false false false.

Inductive completion (A : Type) : Type :=
| Normal (a : A)
| Thrown (message : string)
| Unsettled.
Arguments Normal {A} a.
Arguments Thrown {A} message.
Arguments Unsettled {A}.

Definition Async (A : Type) : Type := St -> completion A * St.

Definition ret {A} (a : A) : Async A := fun s => (Normal a, s).

Definition throw {A} (message : string) : Async A := fun s => (Thrown message, s).

Definition bind {A B} (m : Async A) (k : A -> Async B) : Async B :=
  fun s =>
    match m s with
    | (Normal a, s') => k a s'
    | (Thrown e, s') => (Thrown e, s')
    | (Unsettled, s') => (Unsettled, s')
    end.

Declare Scope async_scope.
Delimit Scope async_scope with async.
Notation "x <- m ;; k" := (bind m (fun x => k))
  (at level 61, m at next level, right associativity) : async_scope.
Notation "m ;; k" := (bind m (fun _ => k))
  (at level 61, right associativity) : async_scope.
Open Scope async_scope.

Definition emit (e : event) : Async unit :=
  fun s => (Normal tt, mkSt (clock s) (trace s ++ [e]) (browser s) (context s) (page s)).

Definition elapse (ms : N) : Async unit :=
  fun s => (Normal tt, mkSt (clock s + ms)%N (trace s) (browser s) (context s) (page s)).

Definition never {A} : Async A := fun s => (Unsettled, s).

(** [await f(...)]: the call is made, then its promise is awaited. *)
Definition await {A} (call : event) (p : settle A) : Async A :=
  emit call ;;
  match p with
  | Fulfils ms a => elapse ms ;; ret a
  | Rejects ms e => elapse ms ;; throw e
  | Pending => never
  end.

(** [try { body } catch (error) { handler(error.message) }] *)
Definition try_catch {A} (body : Async A) (handler : string -> Async A) : Async A :=
  fun s =>
    match body s with
    | (Thrown e, s') => handler e s'
    | r => r
    end.

(** [try { body } finally { fin }]: [fin] runs once [body] has completed,
    whichever way; the completion of [body] stands unless [fin] throws or
    never completes. *)
Definition try_finally {A} (body : Async A) (fin : Async unit) : Async A :=
  fun s =>
    match body s with
    | (Unsettled, s') => (Unsettled, s')
    | (c, s') =>
        match fin s' with
        | (Normal _, s'') => (c, s'')
        | (Thrown e, s'') => (Thrown e, s'')
        | (Unsettled, s'') => (Unsettled, s'')
        end
    end.

Definition set_browser : Async unit :=
  fun s => (Normal tt, mkSt (clock s) (trace s) true (context s) (page s)).
Definition set_context : Async unit :=
  fun s => (Normal tt, mkSt (clock s) (trace s) (browser s) true (page s)).
Definition set_page : Async unit :=
  fun s => (Normal tt, mkSt (clock s) (trace s) (browser s) (context s) true).

Definition get_browser : Async bool := fun s => (Normal (browser s), s).
Definition get_context : Async bool := fun s => (Normal (context s), s).
Definition get_page : Async bool := fun s => (Normal (page s), s).

(** [if (x) await x.close();] *)
Definition when (b : bool) (m : Async unit) : Async unit :=
  if b then m else ret tt.

(** ** server.js *)

(** [req.query] of [GET /screenshot], destructured. *)
Record Query : Type := mkQuery {
  q_url : val;
  q_width : val;
  q_height : val;
  q_quality : val;
  q_fullPage : val;
  q_waitUntil : val;
  q_timeout : val
}.

(** The [options] object of [captureScreenshot]. *)
Record Options : Type := mkOptions {
  o_width : val;
  o_height : val;
  o_quality : val;
  o_fullPage : val;
  o_waitUntil : val;
  o_timeout : val
}.

(** [{}] *)
Definition no_options : Options :=
  mkOptions JUndefined JUndefined JUndefined JUndefined JUndefined JUndefined.

(** [req.body] of [POST /screenshot]: [b_options] is [None] when the body has
    no [options] property.  A body whose [options] is [null] is outside the
    model. *)
Record PostBody : Type := mkPostBody {
  b_url : val;
  b_options : option Options
}.

Inductive Body : Type :=
| Json (fields : list (string * string))
| Image (data : bytes).

Record Response : Type := mkResponse {
  status : Z;
  headers : list (string * string);
  body : Body
}.

(** What handling one request amounts to: the response sent, the calls and
    console output of the capture it started (all of them, also those made
    after the response), and the console output of the handler itself. *)
Record Handled : Type := mkHandled {
  response : Response;
  session : list event;
  handler_log : list event
}.

(** The part of a [URL] object the server reads. *)
Record URL : Type := mkURL {
  protocol : string
}.

Definition overallTimeoutMs : N := 60000.

Definition userAgent : string :=
  "Mozilla/5.0 (Macintosh; Intel Mac OS X 10_15_7) AppleWebKit/537.36 (KHTML, like Gecko) Chrome/120.0.0.0 Safari/537.36".

(** [createBrowser] *)
Definition createBrowser (W : World) : Async unit :=
  try_catch
    (emit (ConsoleLog "Creating new Chromium browser instance...") ;;
     await Launch (w_launch W) ;;
     emit (ConsoleLog "Browser created successfully") ;;
     ret tt)
    (fun message =>
       emit (ConsoleError "Failed to create browser instance:" message) ;;
       throw "Failed to create browser instance").

(** The [switch (waitUntil)] of [captureScreenshot]. *)
Definition playwrightWaitUntil (waitUntil : val) : string :=
  if strict_eq_str waitUntil "load" then "load"
  else if strict_eq_str waitUntil "domcontentloaded" then "domcontentloaded"
  else "networkidle".

(** [fullPage === 'true' || fullPage === true] *)
Definition wantsFullPage (fullPage : val) : bool :=
  strict_eq_str fullPage "true" || strict_eq_true fullPage.

(** [screenshotOptions], once the clip has been added or not. *)
Definition screenshotOptions (width height fullPage : val) : ScreenshotOptions :=
  let full := wantsFullPage fullPage in
  mkScreenshotOptions "png" full
    (if negb full
     then Some (mkClip 0 0 (parseInt width) (parseInt height))
     else None).

(** The [finally] block of [captureScreenshot]. *)
Definition cleanup (W : World) : Async unit :=
  try_catch
    (p <- get_page ;; when p (await PageClose (w_pageClose W)) ;;
     c <- get_context ;; when c (await ContextClose (w_contextClose W)) ;;
     b <- get_browser ;; when b (await BrowserClose (w_browserClose W)))
    (fun message => emit (ConsoleWarn "Cleanup warning:" message)).

(** [captureScreenshot(url, options)] *)
Definition captureScreenshot (W : World) (url : val) (options : Options) : Async bytes :=
  let width := default_to (JNum (Int 1200)) (o_width options) in
  let height := default_to (JNum (Int 800)) (o_height options) in
  let quality := default_to (JNum (Int 80)) (o_quality options) in
  let fullPage := default_to (JBool false) (o_fullPage options) in
  let waitUntil := default_to (JStr "networkidle") (o_waitUntil options) in
  let timeout := default_to (JNum (Int 30000)) (o_timeout options) in
  try_finally
    (try_catch
       (createBrowser W ;; set_browser ;;
        await (NewContext (parseInt width) (parseInt height) userAgent)
              (w_newContext W (parseInt width) (parseInt height)) ;;
        set_context ;;
        await NewPage (w_newPage W) ;; set_page ;;
        let wu := playwrightWaitUntil waitUntil in
        await (Goto url wu (parseInt timeout))
              (w_goto W url wu (parseInt timeout)) ;;
        let so := screenshotOptions width height fullPage in
        screenshot <- await (Screenshot so) (w_screenshot W so) ;;
        optimizedImage <- await (Webp (parseInt quality))
                                (w_webp W screenshot (parseInt quality)) ;;
        ret optimizedImage)
       (fun message => throw ("Screenshot failed: " ++ message)))
    (cleanup W).

(** [await Promise.race([screenshotPromise, timeoutPromise])], the timer being
    set when the capture starts: the capture wins when it settles before the
    timer fires. *)
Definition race {A} (r : completion A * St) : A + string :=
  match r with
  | (Normal a, s) =>
      if (clock s <? overallTimeoutMs)%N then inl a
      else inr "Screenshot request timeout"
  | (Thrown e, s) =>
      if (clock s <? overallTimeoutMs)%N then inr e
      else inr "Screenshot request timeout"
  | (Unsettled, _) => inr "Screenshot request timeout"
  end.

(** [return res.status(400).json(error)], before any capture is started. *)
Definition reject (error : list (string * string)) : Handled :=
  mkHandled (mkResponse 400 [] (Json error)) [] [].

(** The [catch] of both handlers. *)
Definition fail (message : string) (calls : list event) : Handled :=
  mkHandled
    (mkResponse 500 []
       (Json [("error", "Failed to capture screenshot"); ("message", message)]))
    calls
    [ConsoleError "Screenshot error:" message].

(** [const { url, options = {} } = req.body]: the options. *)
Definition options_of (b : PostBody) : Options :=
  match b_options b with
  | Some o => o
  | None => no_options
  end.

Section Server.

(** [new URL(x)]: the parsed URL, or [None] where the constructor throws. *)
Variable newURL : val -> option URL.

(** [isValidUrl] *)
Definition isValidUrl (string : val) : bool :=
  match newURL string with
  | Some url => (protocol url =? "http:")%string || (protocol url =? "https:")%string
  | None => false
  end.

(** [app.get('/screenshot', ...)].  [res.set] and [res.send] are taken not to
    throw. *)
Definition getScreenshot (W : World) (q : Query) : Handled :=
  if negb (truthy (q_url q)) then
    reject [("error", "URL parameter is required");
            ("example", "/screenshot?url=https://example.com&width=1200&height=800")]
  else if negb (isValidUrl (q_url q)) then
    reject [("error", "Invalid URL format. Must include http:// or https://")]
  else
    let widthNum := parseInt_or (q_width q) 1200 in
    let heightNum := parseInt_or (q_height q) 800 in
    if (widthNum <? 100) || (widthNum >? 4000) then
      reject [("error", "Width must be between 100 and 4000 pixels")]
    else if (heightNum <? 100) || (heightNum >? 4000) then
      reject [("error", "Height must be between 100 and 4000 pixels")]
    else
      let run :=
        captureScreenshot W (q_url q)
          (mkOptions (JNum (Int widthNum)) (JNum (Int heightNum))
             (or_else (q_quality q) (JNum (Int 80)))
             (q_fullPage q)
             (or_else (q_waitUntil q) (JStr "networkidle2"))
             (or_else (q_timeout q) (JNum (Int 30000))))
          start in
      match race run with
      | inl imageBuffer =>
          mkHandled
            (mkResponse 200
               [("Content-Type", "image/webp");
                ("Content-Length", decimal (Z.of_nat (List.length imageBuffer)));
                ("Cache-Control", "public, max-age=3600");
                ("X-Screenshot-URL", toString (q_url q));
                ("X-Screenshot-Dimensions",
                 decimal widthNum ++ "x" ++ decimal heightNum)]
               (Image imageBuffer))
            (trace (snd run)) []
      | inr message => fail message (trace (snd run))
      end.

(** [app.post('/screenshot', ...)] *)
Definition postScreenshot (W : World) (b : PostBody) : Handled :=
  if negb (truthy (b_url b)) then
    reject [("error", "URL is required in request body")]
  else if negb (isValidUrl (b_url b)) then
    reject [("error", "Invalid URL format. Must include http:// or https://")]
  else
    let options := options_of b in
    let run := captureScreenshot W (b_url b) options start in
    match race run with
    | inl imageBuffer =>
        mkHandled
          (mkResponse 200
             [("Content-Type", "image/webp");
              ("Content-Length", decimal (Z.of_nat (List.length imageBuffer)));
              ("Cache-Control", "public, max-age=3600")]
             (Image imageBuffer))
          (trace (snd run)) []
    | inr message => fail message (trace (snd run))
    end.

End Server.

(** ** Vocabulary of the properties *)

(** The options object the [GET] handler builds once the request is valid. *)
Definition options_of_query (q : Query) : Options :=
  mkOptions (JNum (Int (parseInt_or (q_width q) 1200)))
    (JNum (Int (parseInt_or (q_height q) 800)))
    (or_else (q_quality q) (JNum (Int 80)))
    (q_fullPage q)
    (or_else (q_waitUntil q) (JStr "networkidle2"))
    (or_else (q_timeout q) (JNum (Int 30000))).

(** What each call of one capture must look like, given the arguments of
    [captureScreenshot]. *)
Definition call_matches (url : val) (o : Options) (e : event) : Prop :=
  let width := default_to (JNum (Int 1200)) (o_width o) in
  let height := default_to (JNum (Int 800)) (o_height o) in
  match e with
  | NewContext w h ua => w = parseInt width /\ h = parseInt height /\ ua = userAgent
  | Goto u wu t =>
      u = url /\
      wu = playwrightWaitUntil (default_to (JStr "networkidle") (o_waitUntil o)) /\
      t = parseInt (default_to (JNum (Int 30000)) (o_timeout o))
  | Screenshot so =>
      so = screenshotOptions width height (default_to (JBool false) (o_fullPage o))
  | Webp n => n = parseInt (default_to (JNum (Int 80)) (o_quality o))
  | _ => True
  end.

(** The url parses, and its scheme is http or https. *)
Definition http_or_https (newURL : val -> option URL) (v : val) : Prop :=
  exists u, newURL v = Some u /\ (protocol u = "http:" \/ protocol u = "https:").


(** The capture settled, and did so before the timer of the handler fired. *)
Definition settles_in_time {A} (r : completion A * St) : bool :=
  match r with
  | (Unsettled, _) => false
  | (_, s) => (clock s <? overallTimeoutMs)%N
  end.

Definition unsettled {A} (c : completion A) : bool :=
  match c with
  | Unsettled => true
  | _ => false
  end.

Definition fulfils {A} (p : settle A) : bool :=
  match p with
  | Fulfils _ _ => true
  | _ => false
  end.

Definition rejects {A} (p : settle A) : bool :=
  match p with
  | Rejects _ _ => true
  | _ => false
  end.

Definition pending {A} (p : settle A) : bool :=
  match p with
  | Pending => true
  | _ => false
  end.

(** The three [close] calls, as they occur in a trace. *)
Definition is_close (e : event) : bool :=
  match e with
  | PageClose | ContextClose | BrowserClose => true
  | _ => false
  end.

(** [W] with the three [close] calls succeeding at once. *)
Definition with_clean_teardown (W : World) : World :=
  mkWorld (w_launch W) (w_newContext W) (w_newPage W) (w_goto W)
    (w_screenshot W) (w_webp W) (Fulfils 0 tt) (Fulfils 0 tt) (Fulfils 0 tt).

Definition with_width (w : val) (q : Query) : Query :=
  mkQuery (q_url q) w (q_height q) (q_quality q) (q_fullPage q)
    (q_waitUntil q) (q_timeout q).

Definition with_height (h : val) (q : Query) : Query :=
  mkQuery (q_url q) (q_width q) h (q_quality q) (q_fullPage q)
    (q_waitUntil q) (q_timeout q).

Definition with_quality (x : val) (q : Query) : Query :=
  mkQuery (q_url q) (q_width q) (q_height q) x (q_fullPage q)
    (q_waitUntil q) (q_timeout q).

Definition with_fullPage (x : val) (q : Query) : Query :=
  mkQuery (q_url q) (q_width q) (q_height q) (q_quality q) x
    (q_waitUntil q) (q_timeout q).

Definition with_waitUntil (x : val) (q : Query) : Query :=
  mkQuery (q_url q) (q_width q) (q_height q) (q_quality q) (q_fullPage q)
    x (q_timeout q).

Definition with_timeout (x : val) (q : Query) : Query :=
  mkQuery (q_url q) (q_width q) (q_height q) (q_quality q) (q_fullPage q)
    (q_waitUntil q) x.

(** ** Concrete requests and worlds *)

(** A stand-in for [new URL] that agrees with it on the four strings the
    requests below carry: "https://example.com", "http://example.com/page" and
    "ftp://example.com/file" parse, with these protocols, and "not-a-url"
    does not.  It is not meant for any other argument. *)
Definition newURL_sample (v : val) : option URL :=
  match v with
  | JStr s =>
      if (s =? "https://example.com")%string then Some (mkURL "https:")
      else if (s =? "http://example.com/page")%string then Some (mkURL "http:")
      else if (s =? "ftp://example.com/file")%string then Some (mkURL "ftp:")
      else None
  | _ => None
  end.

Definition png_sample : bytes := [Byte.x89; Byte.x50; Byte.x4e; Byte.x47].

Definition webp_sample : bytes := [Byte.x52; Byte.x49; Byte.x46; Byte.x46].

(** Every call succeeds, the whole capture taking 2.2 seconds. *)
Definition world_fine : World :=
  mkWorld (Fulfils 400 tt) (fun _ _ => Fulfils 20 tt) (Fulfils 30 tt)
    (fun _ _ _ => Fulfils 1500 tt)
    (fun _ => Fulfils 120 png_sample)
    (fun _ _ => Fulfils 60 webp_sample)
    (Fulfils 10 tt) (Fulfils 10 tt) (Fulfils 50 tt).

(** As [world_fine], but [page.close()] rejects. *)
Definition world_page_close_fails : World :=
  mkWorld (Fulfils 400 tt) (fun _ _ => Fulfils 20 tt) (Fulfils 30 tt)
    (fun _ _ _ => Fulfils 1500 tt)
    (fun _ => Fulfils 120 png_sample)
    (fun _ _ => Fulfils 60 webp_sample)
    (Rejects 10 "Protocol error (Target.closeTarget): Target closed")
    (Fulfils 10 tt) (Fulfils 50 tt).

(** Navigation takes 70 seconds and then succeeds. *)
Definition world_slow_page : World :=
  mkWorld (Fulfils 400 tt) (fun _ _ => Fulfils 20 tt) (Fulfils 30 tt)
    (fun _ _ _ => Fulfils 70000 tt)
    (fun _ => Fulfils 120 png_sample)
    (fun _ _ => Fulfils 60 webp_sample)
    (Fulfils 10 tt) (Fulfils 10 tt) (Fulfils 50 tt).

(** The page never becomes idle: navigation is rejected when its timeout has
    passed, and never settles when the timeout is 0, which turns it off. *)
Definition world_page_never_idle : World :=
  mkWorld (Fulfils 400 tt) (fun _ _ => Fulfils 20 tt) (Fulfils 30 tt)
    (fun _ _ timeout =>
       match timeout with
       | Int 0 => Pending
       | Int ms => Rejects (Z.to_N ms) "page.goto: Timeout exceeded"
       | NaN => Rejects 30000 "page.goto: Timeout exceeded"
       end)
    (fun _ => Fulfils 120 png_sample)
    (fun _ _ => Fulfils 60 webp_sample)
    (Fulfils 10 tt) (Fulfils 10 tt) (Fulfils 50 tt).

(** [/screenshot?url=https://example.com] *)
Definition query_plain : Query :=
  mkQuery (JStr "https://example.com") JUndefined JUndefined JUndefined
    JUndefined JUndefined JUndefined.

(** [/screenshot?width=1200&height=800] *)
Definition query_no_url : Query :=
  mkQuery JUndefined (JStr "1200") (JStr "800") JUndefined JUndefined
    JUndefined JUndefined.

(** [/screenshot?url=not-a-url] *)
Definition query_not_a_url : Query :=
  mkQuery (JStr "not-a-url") JUndefined JUndefined JUndefined JUndefined
    JUndefined JUndefined.

(** [/screenshot?url=https://example.com&width=abc] *)
Definition query_width_abc : Query := with_width (JStr "abc") query_plain.

(** [/screenshot?url=https://example.com&width=5000&height=5000] *)
Definition query_too_wide : Query :=
  with_height (JStr "5000") (with_width (JStr "5000") query_plain).

(** [/screenshot?url=https://example.com&width=800&height=600] *)
Definition query_800x600 : Query :=
  with_height (JStr "600") (with_width (JStr "800") query_plain).

(** [/screenshot?url=https://example.com&quality=150] *)
Definition query_quality_150 : Query := with_quality (JStr "150") query_plain.

(** [/screenshot?url=https://example.com&timeout=90000] *)
Definition query_timeout_90000 : Query := with_timeout (JStr "90000") query_plain.

(** [/screenshot?url=https://example.com&timeout=0] *)
Definition query_timeout_0 : Query := with_timeout (JStr "0") query_plain.

(** [/screenshot?url=https://example.com&waitUntil=load] *)
Definition query_wait_load : Query := with_waitUntil (JStr "load") query_plain.

(** [/screenshot?url=https://example.com&fullPage=true&width=1024&height=768] *)
Definition query_full_page : Query :=
  with_fullPage (JStr "true")
    (with_height (JStr "768") (with_width (JStr "1024") query_plain)).

(** [{"options": {"width": 800, "height": 600}}] *)
Definition body_no_url : PostBody :=
  mkPostBody JUndefined (Some (mkOptions (JNum (Int 800)) (JNum (Int 600))
    JUndefined JUndefined JUndefined JUndefined)).

(** [{"url": "ftp://example.com/file"}] *)
Definition body_ftp : PostBody := mkPostBody (JStr "ftp://example.com/file") None.

(** [{"url": "https://example.com", "options": {"width": 5000}}] *)
Definition body_too_wide : PostBody :=
  mkPostBody (JStr "https://example.com")
    (Some (mkOptions (JNum (Int 5000)) JUndefined JUndefined JUndefined
             JUndefined JUndefined)).

(** [{"url": "https://example.com",
      "options": {"width": 800, "height": 600, "quality": 85,
                  "waitUntil": "networkidle2"}}] *)
Definition body_plain : PostBody :=
  mkPostBody (JStr "https://example.com")
    (Some (mkOptions (JNum (Int 800)) (JNum (Int 600)) (JNum (Int 85))
             JUndefined (JStr "networkidle2") JUndefined)).

(** [{width: 800, height: 600}] *)
Definition options_800x600 : Options :=
  mkOptions (JNum (Int 800)) (JNum (Int 600)) JUndefined JUndefined
    JUndefined JUndefined.

(** [{fullPage: "yes"}] *)
Definition options_full_page_yes : Options :=
  mkOptions JUndefined JUndefined JUndefined (JStr "yes") JUndefined JUndefined.

(** The screenshot of a 1200 x 800 and of an 800 x 600 viewport. *)
Definition clipped_1200x800 : ScreenshotOptions :=
  mkScreenshotOptions "png" false (Some (mkClip 0 0 (Int 1200) (Int 800))).

Definition clipped_800x600 : ScreenshotOptions :=
  mkScreenshotOptions "png" false (Some (mkClip 0 0 (Int 800) (Int 600))).

(** ** The capture, step by step *)

(** The place of a call in the pipeline of [captureScreenshot]; [None] for
    console output and for the [close] calls. *)
Definition step_of (e : event) : option nat :=
  match e with
  | Launch => Some 0%nat
  | NewContext _ _ _ => Some 1%nat
  | NewPage => Some 2%nat
  | Goto _ _ _ => Some 3%nat
  | Screenshot _ => Some 4%nat
  | Webp _ => Some 5%nat
  | _ => None
  end.

Fixpoint steps (tr : list event) : list nat :=
  match tr with
  | [] => []
  | e :: rest =>
      match step_of e with
      | Some n => n :: steps rest
      | None => steps rest
      end
  end.




(** No browser can be launched. *)
Definition world_no_browser : World :=
  mkWorld (Rejects 250 "browserType.launch: Executable doesn't exist")
    (fun _ _ => Fulfils 20 tt) (Fulfils 30 tt)
    (fun _ _ _ => Fulfils 1500 tt)
    (fun _ => Fulfils 120 png_sample)
    (fun _ _ => Fulfils 60 webp_sample)
    (Fulfils 10 tt) (Fulfils 10 tt) (Fulfils 50 tt).

(** [/screenshot?url=https://example.com&width=0] *)
Definition query_width_0 : Query := with_width (JStr "0") query_plain.

(** [/screenshot?url=https://example.com&height=0px] *)
Definition query_height_0px : Query := with_height (JStr "0px") query_plain.
(** ** Decimal digits *)

(** The number a string of decimal digits denotes, most significant digit
    first, after the digits already read as [a]. *)
Fixpoint uint_value (d : Decimal.uint) (a : Z) : Z :=
  match d with
  | Decimal.Nil => a
  | Decimal.D0 d' => uint_value d' (10 * a + 0)
  | Decimal.D1 d' => uint_value d' (10 * a + 1)
  | Decimal.D2 d' => uint_value d' (10 * a + 2)
  | Decimal.D3 d' => uint_value d' (10 * a + 3)
  | Decimal.D4 d' => uint_value d' (10 * a + 4)
  | Decimal.D5 d' => uint_value d' (10 * a + 5)
  | Decimal.D6 d' => uint_value d' (10 * a + 6)
  | Decimal.D7 d' => uint_value d' (10 * a + 7)
  | Decimal.D8 d' => uint_value d' (10 * a + 8)
  | Decimal.D9 d' => uint_value d' (10 * a + 9)
  end.

(** [parseInt] stops reading at this string: it is empty or starts with
    something that is not a decimal digit. *)
Definition stops_decimal (s : string) : bool :=
  match s with
  | EmptyString => true
  | String c _ =>
      match digitValue c with
      | Some d => negb (d <? 10)
      | None => true
      end
  end.


(** The string does not go on with the [x] of a hexadecimal prefix. *)
Definition no_hex_mark (s : string) : bool :=
  match s with
  | String "x" _ => false
  | String "X" _ => false
  | _ => true
  end.
(** ** The other routes of server.js *)

(** JSON as the handlers build it; [JsReal] is a number that is not an
    integer, by its digits. *)
#[local] Unset Elimination Schemes.

Inductive json : Type :=
| JsNull
| JsBool (b : bool)
| JsNum (z : Z)
| JsReal (digits : string)
| JsStr (s : string)
| JsArr (items : list json)
| JsObj (fields : list (string * json)).

#[local] Set Elimination Schemes.

(** [o[key]] *)
Fixpoint json_field (key : string) (fields : list (string * json)) : option json :=
  match fields with
  | [] => None
  | (k, v) :: rest => if (k =? key)%string then Some v else json_field key rest
  end.

Definition json_get (key : string) (j : json) : option json :=
  match j with
  | JsObj fields => json_field key fields
  | _ => None
  end.

(** The body of [GET /api/docs]. *)
Definition apiDocs : json :=
  JsObj
    [("title", JsStr "HTML to Image API");
     ("version", JsStr "1.0.0");
     ("description", JsStr "Convert any URL to optimized WebP images");
     ("endpoints",
      JsObj
        [("GET /screenshot",
          JsObj
            [("description", JsStr "Capture screenshot of a URL");
             ("parameters",
              JsObj
                [("url",
                  JsObj [("type", JsStr "string"); ("required", JsBool true);
                         ("description", JsStr "URL to capture")]);
                 ("width",
                  JsObj [("type", JsStr "number"); ("default", JsNum 1200);
                         ("description", JsStr "Screenshot width (100-4000px)")]);
                 ("height",
                  JsObj [("type", JsStr "number"); ("default", JsNum 800);
                         ("description", JsStr "Screenshot height (100-4000px)")]);
                 ("quality",
                  JsObj [("type", JsStr "number"); ("default", JsNum 80);
                         ("description", JsStr "WebP quality (1-100)")]);
                 ("fullPage",
                  JsObj [("type", JsStr "boolean"); ("default", JsBool false);
                         ("description", JsStr "Capture full page height")]);
                 ("waitUntil",
                  JsObj [("type", JsStr "string");
                         ("default", JsStr "networkidle2");
                         ("description",
                          JsStr "When to consider loading finished")]);
                 ("timeout",
                  JsObj [("type", JsStr "number"); ("default", JsNum 30000);
                         ("description", JsStr "Navigation timeout in ms")])]);
             ("example",
              JsStr "/screenshot?url=https://example.com&width=1200&height=800&quality=85")]);
         ("POST /screenshot",
          JsObj
            [("description", JsStr "Capture screenshot with complex options");
             ("body",
              JsObj
                [("url",
                  JsObj [("type", JsStr "string"); ("required", JsBool true)]);
                 ("options",
                  JsObj [("type", JsStr "object");
                         ("description", JsStr "Screenshot options")])])]);
         ("GET /health",
          JsObj [("description", JsStr "Health check endpoint")])])].

(** The body of the 404 handler. *)
Definition notFoundBody : json :=
  JsObj
    [("error", JsStr "Endpoint not found");
     ("availableEndpoints",
      JsArr [JsStr "/screenshot"; JsStr "/health"; JsStr "/api/docs"])].

(** The default [/api/docs] gives for a parameter of [GET /screenshot]. *)
Definition documented_default (name : string) : option json :=
  match json_get "endpoints" apiDocs with
  | Some endpoints =>
      match json_get "GET /screenshot" endpoints with
      | Some route =>
          match json_get "parameters" route with
          | Some parameters =>
              match json_get name parameters with
              | Some parameter => json_get "default" parameter
              | None => None
              end
          | None => None
          end
      | None => None
      end
  | None => None
  end.

(** A scalar as it arrives in [req.query] when it is written into the query
    string. *)
Definition query_text (j : json) : val :=
  match j with
  | JsNum z => JStr (decimal z)
  | JsBool true => JStr "true"
  | JsBool false => JStr "false"
  | JsStr s => JStr s
  | JsReal digits => JStr digits
  | JsNull => JStr "null"
  | JsArr _ | JsObj _ => JUndefined
  end.

(** [req.query[name]] and the query with [name] set, for the parameters the
    handler destructures. *)
Definition param (name : string) (q : Query) : option val :=
  if (name =? "url")%string then Some (q_url q)
  else if (name =? "width")%string then Some (q_width q)
  else if (name =? "height")%string then Some (q_height q)
  else if (name =? "quality")%string then Some (q_quality q)
  else if (name =? "fullPage")%string then Some (q_fullPage q)
  else if (name =? "waitUntil")%string then Some (q_waitUntil q)
  else if (name =? "timeout")%string then Some (q_timeout q)
  else None.

Definition with_param (name : string) (v : val) (q : Query) : Query :=
  if (name =? "url")%string then
    mkQuery v (q_width q) (q_height q) (q_quality q) (q_fullPage q)
      (q_waitUntil q) (q_timeout q)
  else if (name =? "width")%string then with_width v q
  else if (name =? "height")%string then with_height v q
  else if (name =? "quality")%string then with_quality v q
  else if (name =? "fullPage")%string then with_fullPage v q
  else if (name =? "waitUntil")%string then with_waitUntil v q
  else if (name =? "timeout")%string then with_timeout v q
  else q.

(** What the process reads from its environment and its clock. *)
Record Env : Type := mkEnv {
  NODE_ENV : val;
  now_iso : string;
  uptime : json
}.

Inductive Method : Type :=
| MGet
| MPost
| MOther (name : string).

(** A request as the routes see it, after the middleware: the query and the
    JSON body already parsed.  HEAD and OPTIONS requests, which Express and
    [cors] answer themselves, malformed JSON bodies and requests over the
    rate limit are outside the model. *)
Record Request : Type := mkRequest {
  r_method : Method;
  r_path : string;
  r_query : Query;
  r_body : PostBody
}.

(** What a route does: a capture with its response, or a JSON answer. *)
Inductive Served : Type :=
| Capture (h : Handled)
| Answer (code : Z) (content : json).

Definition status_of (s : Served) : Z :=
  match s with
  | Capture h => status (response h)
  | Answer code _ => code
  end.

(** [app.get('/health', ...)] *)
Definition health (env : Env) : Served :=
  Answer 200
    (JsObj [("status", JsStr "healthy");
            ("timestamp", JsStr (now_iso env));
            ("uptime", uptime env)]).

(** [app.get('/api/docs', ...)] *)
Definition docs : Served := Answer 200 apiDocs.

(** [app.use('*', ...)] *)
Definition notFound : Served := Answer 404 notFoundBody.

Definition is_get (m : Method) : bool :=
  match m with
  | MGet => true
  | _ => false
  end.

Definition is_post (m : Method) : bool :=
  match m with
  | MPost => true
  | _ => false
  end.

Section App.

(** Express's test of a request path against the path of a route. *)
Variable matches : string -> string -> bool.

Variable newURL : val -> option URL.

(** The routes of [app], tried in the order they are registered. *)
Definition appRoutes (env : Env) (W : World) (r : Request) : Served :=
  if is_get (r_method r) && matches "/health" (r_path r) then health env
  else if is_get (r_method r) && matches "/screenshot" (r_path r) then
    Capture (getScreenshot newURL W (r_query r))
  else if is_post (r_method r) && matches "/screenshot" (r_path r) then
    Capture (postScreenshot newURL W (r_body r))
  else if is_get (r_method r) && matches "/api/docs" (r_path r) then docs
  else notFound.

End App.

(** The strings of a JSON array and the keys of a JSON object. *)
Definition strings_of (j : option json) : list string :=
  match j with
  | Some (JsArr items) =>
      flat_map (fun i => match i with JsStr s => [s] | _ => [] end) items
  | _ => []
  end.

Definition keys_of (j : option json) : list string :=
  match j with
  | Some (JsObj fields) => map fst fields
  | _ => []
  end.

(** ["GET /health"] as a method and a path. *)
Fixpoint after_space (s : string) : string :=
  match s with
  | EmptyString => EmptyString
  | String " " r => r
  | String _ r => after_space r
  end.

Fixpoint before_space (s : string) : string :=
  match s with
  | EmptyString => EmptyString
  | String " " _ => EmptyString
  | String c r => String c (before_space r)
  end.

Definition method_named (name : string) : Method :=
  if (name =? "GET")%string then MGet
  else if (name =? "POST")%string then MPost
  else MOther name.

(** ** The process *)

Inductive ProcessEvent : Type :=
| SIGINT
| SIGTERM
| UncaughtException (error : string)
| UnhandledRejection (reason : string).

(** What the process prints and, when it ends, its exit code. *)
Record Ending : Type := mkEnding {
  printed : list event;
  exit_code : option Z
}.

(** [gracefulShutdown(signal)] *)
Definition gracefulShutdown (signal : string) : Ending :=
  mkEnding
    [ConsoleLog ("Received " ++ signal ++ ". Shutting down gracefully...");
     ConsoleLog "Server shutdown complete"]
    (Some 0).

(** The four [process.on] handlers.  Of what [console.error] is given, the
    label and the error or the reason are kept. *)
Definition on_process_event (env : Env) (e : ProcessEvent) : Ending :=
  match e with
  | SIGINT => gracefulShutdown "SIGINT"
  | SIGTERM => gracefulShutdown "SIGTERM"
  | UncaughtException error =>
      let s := gracefulShutdown "uncaughtException" in
      mkEnding (ConsoleError "Uncaught Exception:" error :: printed s)
        (exit_code s)
  | UnhandledRejection reason =>
      if negb (strict_eq_str (NODE_ENV env) "production") then
        let s := gracefulShutdown "unhandledRejection" in
        mkEnding (ConsoleError "Unhandled Rejection at:" reason :: printed s)
          (exit_code s)
      else mkEnding [ConsoleError "Unhandled Rejection at:" reason] None
  end.

(** ** test.js: the error-handling tests *)

(** What [makeRequest] resolves with, or the message it rejects with. *)
Inductive HttpResult : Type :=
| HttpResponse (statusCode : Z) (headers : list (string * string)) (data : bytes)
| HttpError (message : string).

Definition SERVER_URL : string := "http://localhost:3000".

Record ErrorTest : Type := mkErrorTest {
  et_name : string;
  et_endpoint : string;
  et_expectedStatus : Z
}.

(** [errorTests] of [testErrorHandling] *)
Definition errorTests : list ErrorTest :=
  [mkErrorTest "Missing URL parameter" "/screenshot" 400;
   mkErrorTest "Invalid URL format" "/screenshot?url=invalid-url" 400;
   mkErrorTest "Invalid dimensions"
     "/screenshot?url=https://example.com&width=5000&height=5000" 400].

Definition newline : string := String (ascii_of_nat 10) "".

Section Tests.

(** [makeRequest(url)], a GET. *)
Variable makeRequest : string -> HttpResult.

(** The loop of [testErrorHandling]: what it prints and how many tests it
    counts as passed. *)
Fixpoint runErrorTests (tests : list ErrorTest) (passed : nat)
  : list event * nat :=
  match tests with
  | [] => ([], passed)
  | test :: rest =>
      match makeRequest (SERVER_URL ++ et_endpoint test) with
      | HttpResponse statusCode _ _ =>
          if statusCode =? et_expectedStatus test then
            let '(out, n) := runErrorTests rest (S passed) in
            (ConsoleLog ("✅ " ++ et_name test ++ " - correctly returned " ++
                         decimal (et_expectedStatus test)) :: out, n)
          else
            let '(out, n) := runErrorTests rest passed in
            (ConsoleLog ("❌ " ++ et_name test ++ " - expected " ++
                         decimal (et_expectedStatus test) ++ ", got " ++
                         decimal statusCode) :: out, n)
      | HttpError message =>
          let '(out, n) := runErrorTests rest passed in
          (ConsoleLog ("❌ " ++ et_name test ++ " error: " ++ message) :: out, n)
      end
  end.

(** [testErrorHandling] *)
Definition testErrorHandling : list event * nat :=
  let '(out, n) := runErrorTests errorTests 0 in
  (ConsoleLog (newline ++ "🚨 Testing error handling...") :: out, n).

End Tests.

(** *** The way from [makeRequest] to the routes *)

(** [s] without the prefix [p], when it has it. *)
Fixpoint strip_prefix (p s : string) : option string :=
  match p, s with
  | EmptyString, _ => Some s
  | String a p', String b s' =>
      if Ascii.eqb a b then strip_prefix p' s' else None
  | String _ _, EmptyString => None
  end.

(** The pieces of [s] between occurrences of [sep]. *)
Fixpoint split_on (sep : ascii) (s : string) : list string :=
  match s with
  | EmptyString => [EmptyString]
  | String c r =>
      if Ascii.eqb c sep then EmptyString :: split_on sep r
      else
        match split_on sep r with
        | piece :: pieces => String c piece :: pieces
        | [] => [String c EmptyString]
        end
  end.

(** [s] up to its first [sep], and what follows it. *)
Fixpoint cut_at (sep : ascii) (s : string) : string * string :=
  match s with
  | EmptyString => (EmptyString, EmptyString)
  | String c r =>
      if Ascii.eqb c sep then (EmptyString, r)
      else let '(a, b) := cut_at sep r in (String c a, b)
  end.

(** The query string as Express parses it into [req.query], for a query
    string with no escapes, no [+], no brackets and no repeated key: the
    pieces between [&], each a key and, after its first [=], a value. *)
Definition parse_search (search : string) : list (string * string) :=
  flat_map
    (fun piece =>
       match piece with
       | EmptyString => []
       | _ => [cut_at "=" piece]
       end)
    (split_on "&" search).

Fixpoint lookup (key : string) (pairs : list (string * string)) : val :=
  match pairs with
  | [] => JUndefined
  | (k, v) :: rest => if (k =? key)%string then JStr v else lookup key rest
  end.

(** [const { url, width, height, quality, fullPage, waitUntil, timeout } =
    req.query] *)
Definition query_of (pairs : list (string * string)) : Query :=
  mkQuery (lookup "url" pairs) (lookup "width" pairs) (lookup "height" pairs)
    (lookup "quality" pairs) (lookup "fullPage" pairs)
    (lookup "waitUntil" pairs) (lookup "timeout" pairs).

Definition no_body : PostBody := mkPostBody JUndefined None.

Section Wire.

Variable matches : string -> string -> bool.
Variable newURL : val -> option URL.

(** [JSON.stringify], as bytes. *)
Variable render : json -> bytes.

Definition render_fields (fields : list (string * string)) : bytes :=
  render (JsObj (map (fun kv => (fst kv, JsStr (snd kv))) fields)).

(** A GET of [url] by [makeRequest], answered by the routes of [app]; a url
    that is not on the server is refused. *)
Definition serve (env : Env) (W : World) (url : string) : HttpResult :=
  match strip_prefix SERVER_URL url with
  | Some target =>
      let '(path, search) := cut_at "?" target in
      match appRoutes matches newURL env W
              (mkRequest MGet path (query_of (parse_search search)) no_body) with
      | Capture h =>
          HttpResponse (status (response h)) (headers (response h))
            match body (response h) with
            | Image data => data
            | Json fields => render_fields fields
            end
      | Answer code content => HttpResponse code [] (render content)
      end
  | None => HttpError "connect ECONNREFUSED"
  end.

End Wire.

(** ** Samples for the routes and the tests *)

(** Paths compared as they are written. *)
Definition matches_exactly (pattern path : string) : bool :=
  (pattern =? path)%string.

(** A stand-in for [new URL] that agrees with it on the two urls of the
    error-handling tests: "invalid-url" does not parse and
    "https://example.com" does. *)
Definition newURL_for_tests (v : val) : option URL :=
  match v with
  | JStr s =>
      if (s =? "https://example.com")%string then Some (mkURL "https:")
      else None
  | _ => None
  end.

Definition env_sample : Env :=
  mkEnv (JStr "production") "2025-10-31T10:30:00.000Z" (JsReal "1234.567").

Definition render_nothing (j : json) : bytes := [].

(** [GET /health] and [POST /screenshot] for [body_plain] *)
Definition request_health : Request :=
  mkRequest MGet "/health" query_no_url no_body.

Definition request_post : Request :=
  mkRequest MPost "/screenshot" query_no_url body_plain.

(** [{width: "800px", height: " 600", quality: "85.9"}] *)
Definition options_800x600_text : Options :=
  mkOptions (JStr "800px") (JStr " 600") (JStr "85.9") JUndefined
    (JStr "networkidle0") JUndefined.

(** [{width: 800, height: 600, quality: 85}] *)
Definition options_800x600_q85 : Options :=
  mkOptions (JNum (Int 800)) (JNum (Int 600)) (JNum (Int 85)) JUndefined
    JUndefined JUndefined.

(** ** examples/client.js *)

(** The [params] object [takeScreenshot(url, options)] hands to axios. *)
Definition client_params (url : val) (options : Options) : Query :=
  mkQuery url
    (or_else (o_width options) (JNum (Int 1200)))
    (or_else (o_height options) (JNum (Int 800)))
    (or_else (o_quality options) (JNum (Int 80)))
    (or_else (o_fullPage options) (JBool false))
    (or_else (o_waitUntil options) (JStr "networkidle2"))
    (or_else (o_timeout options) (JNum (Int 30000))).

(** A parameter as it reaches [req.query]: axios leaves [undefined] and
    [null] out of the query string and writes every other value as text. *)
Definition on_the_wire (v : val) : val :=
  match v with
  | JUndefined | JNull => JUndefined
  | _ => JStr (toString v)
  end.

Definition query_on_the_wire (q : Query) : Query :=
  mkQuery (on_the_wire (q_url q)) (on_the_wire (q_width q))
    (on_the_wire (q_height q)) (on_the_wire (q_quality q))
    (on_the_wire (q_fullPage q)) (on_the_wire (q_waitUntil q))
    (on_the_wire (q_timeout q)).

(** The options a caller really chose: the truthy ones. *)
Definition chosen (v : val) : val := if truthy v then v else JUndefined.

Definition chosen_params (url : val) (options : Options) : Query :=
  mkQuery url (chosen (o_width options)) (chosen (o_height options))
    (chosen (o_quality options)) (chosen (o_fullPage options))
    (chosen (o_waitUntil options)) (chosen (o_timeout options)).

(** What [takeScreenshot] returns. *)
Inductive ClientResult : Type :=
| Success (data : bytes) (headers : list (string * string)) (size : nat)
| Failure (error : bytes) (status : Z).

Definition succeeded (r : ClientResult) : bool :=
  match r with
  | Success _ _ _ => true
  | Failure _ _ => false
  end.

Section Client.

Variable newURL : val -> option URL.

(** [JSON.stringify], as bytes. *)
Variable render : json -> bytes.

(** The bytes of a response body. *)
Definition bytes_of (b : Body) : bytes :=
  match b with
  | Image data => data
  | Json fields => render_fields render fields
  end.

(** [takeScreenshot(url, options)] against the [GET] handler: axios resolves
    for a 2xx status and rejects, with the response, for any other; the data
    of a response, being a buffer, is truthy. *)
Definition takeScreenshot (W : World) (url : val) (options : Options)
  : ClientResult :=
  let r :=
    response (getScreenshot newURL W
                (query_on_the_wire (client_params url options))) in
  if (200 <=? status r) && (status r <? 300) then
    Success (bytes_of (body r)) (headers r) (List.length (bytes_of (body r)))
  else Failure (bytes_of (body r)) (status r).

(** [errorHandlingExample]: what it prints. *)
Definition errorHandlingExample (W : World) : list event :=
  let verdict (r : ClientResult) :=
    if succeeded r then "❌ Unexpected success" else "✅ Correctly failed" in
  [ConsoleLog "🔄 Running error handling example...";
   ConsoleLog ("Invalid URL test: " ++
               verdict (takeScreenshot W (JStr "invalid-url") no_options));
   ConsoleLog ("Missing URL test: " ++
               verdict (takeScreenshot W (JStr "") no_options));
   ConsoleLog ("Invalid dimensions test: " ++
               verdict (takeScreenshot W (JStr "https://example.com")
                          (mkOptions (JNum (Int 5000)) (JNum (Int 5000))
                             JUndefined JUndefined JUndefined JUndefined)))].

End Client.

(** [{width: 0, quality: "", fullPage: false}] *)
Definition options_falsy : Options :=
  mkOptions (JNum (Int 0)) JUndefined (JStr "") (JBool false) JNull JUndefined.

(** ** Tactics *)

(** Unfolds a capture down to the promises of the world. *)
Ltac unfold_async :=
  cbv [captureScreenshot createBrowser cleanup try_finally try_catch bind await
       emit elapse never ret throw when set_browser set_context set_page
       get_browser get_context get_page start
       clock trace browser context page fst snd].

(** One case for each way each promise the capture awaits can end. *)
Ltac settle_cases :=
  repeat match goal with
  | |- context [match ?p with Fulfils _ _ => _ | Rejects _ _ => _ | Pending => _ end] =>
      destruct p; cbn [clock trace browser context page fst snd app]
  end.

(** [H : In e l] for a list [l] given by its elements: one case for each. *)
Ltac each_event H e :=
  cbn [In] in H;
  repeat (destruct H as [H|H]; [subst e; cbn; auto|]); try contradiction.

(** [unfold_async], for goals that name fields of the world. *)
Ltac explore :=
  unfold_async;
  cbn [w_launch w_newContext w_newPage w_goto w_screenshot w_webp
       w_pageClose w_contextClose w_browserClose with_clean_teardown] in *.


(** Decides one comparison of keys, literal against literal or against a
    variable. *)
Ltac key_case :=
  match goal with
  | |- context [(?k =? ?n)%string] =>
      let E := fresh "E" in
      destruct (String.eqb_spec k n) as [E|E];
      [ first [discriminate E | subst]
      | try (exfalso; apply E; reflexivity) ]
  end.

(** * Properties *)

(** ** parseInt and the sample requests *)

Example parseInt_plain : parseInt (JStr "1200") = Int 1200.
Proof. reflexivity. Qed.

Example parseInt_trailing : parseInt (JStr " 150px") = Int 150.
Proof. reflexivity. Qed.

Example parseInt_hex : parseInt (JStr "0x64") = Int 100.
Proof. reflexivity. Qed.

Example parseInt_negative : parseInt (JStr "-7.9") = Int (-7).
Proof. reflexivity. Qed.

Example parseInt_letters : parseInt (JStr "abc") = NaN.
Proof. reflexivity. Qed.

Example parseInt_empty : parseInt (JStr "") = NaN.
Proof. reflexivity. Qed.

Example parseInt_or_zero : parseInt_or (JStr "0") 1200 = 1200.
Proof. reflexivity. Qed.

(** [url=https://example.com&width=800&height=600]: 200, WebP, clipped to
    800 x 600, and everything that was opened is closed. *)
Example basic_screenshot :
  getScreenshot newURL_sample world_fine query_800x600 =
    mkHandled
      (mkResponse 200
         [("Content-Type", "image/webp"); ("Content-Length", "4");
          ("Cache-Control", "public, max-age=3600");
          ("X-Screenshot-URL", "https://example.com");
          ("X-Screenshot-Dimensions", "800x600")]
         (Image webp_sample))
      [ConsoleLog "Creating new Chromium browser instance..."; Launch;
       ConsoleLog "Browser created successfully";
       NewContext (Int 800) (Int 600) userAgent; NewPage;
       Goto (JStr "https://example.com") "networkidle" (Int 30000);
       Screenshot clipped_800x600; Webp (Int 80);
       PageClose; ContextClose; BrowserClose]
      [].
Proof. reflexivity. Qed.

(** [width=5000&height=5000] with a valid url: 400 for the width. *)
Example invalid_dimensions :
  getScreenshot newURL_sample world_fine query_too_wide =
    reject [("error", "Width must be between 100 and 4000 pixels")].
Proof. reflexivity. Qed.

(** [fullPage=true]: no clip, and the viewport is still 1024 x 768. *)
Example full_page_screenshot :
  In (Screenshot (mkScreenshotOptions "png" true None))
     (session (getScreenshot newURL_sample world_fine query_full_page)) /\
  In (NewContext (Int 1024) (Int 768) userAgent)
     (session (getScreenshot newURL_sample world_fine query_full_page)).
Proof. vm_compute. tauto. Qed.

(** ** Running a capture in an arbitrary world *)

(** Every call of a capture carries the arguments [captureScreenshot]
    computes from its options, however far the capture gets. *)
Lemma captureScreenshot_calls :
  forall W url o e,
    In e (trace (snd (captureScreenshot W url o start))) -> call_matches url o e.
Proof.
  intros W url o e.
  unfold_async.
  settle_cases; intros H; each_event H e.
Qed.

(** A capture that fails says so with the prefix of its [catch]. *)
Lemma captureScreenshot_failure_message :
  forall W url o m,
    fst (captureScreenshot W url o start) = Thrown m ->
    exists cause, m = "Screenshot failed: " ++ cause.
Proof.
  intros W url o m.
  unfold_async.
  settle_cases; intros H; try discriminate H;
    injection H as <-; eexists; reflexivity.
Qed.

(** The handlers either reject the request outright or report the trace of the
    one capture they start. *)
Lemma getScreenshot_session :
  forall newURL W q,
    session (getScreenshot newURL W q) = [] \/
    session (getScreenshot newURL W q) =
      trace (snd (captureScreenshot W (q_url q) (options_of_query q) start)).
Proof.
  intros newURL W q. unfold getScreenshot, options_of_query.
  destruct (negb (truthy (q_url q))); [left; reflexivity|].
  destruct (negb (isValidUrl newURL (q_url q))); [left; reflexivity|].
  destruct (_ || _); [left; reflexivity|].
  destruct (_ || _); [left; reflexivity|].
  right. destruct (race _); reflexivity.
Qed.

Lemma postScreenshot_session :
  forall newURL W b,
    session (postScreenshot newURL W b) = [] \/
    session (postScreenshot newURL W b) =
      trace (snd (captureScreenshot W (b_url b) (options_of b) start)).
Proof.
  intros newURL W b. unfold postScreenshot, options_of.
  destruct (negb (truthy (b_url b))); [left; reflexivity|].
  destruct (negb (isValidUrl newURL (b_url b))); [left; reflexivity|].
  right. destruct (race _); reflexivity.
Qed.

Lemma getScreenshot_calls :
  forall newURL W q e,
    In e (session (getScreenshot newURL W q)) ->
    call_matches (q_url q) (options_of_query q) e.
Proof.
  intros newURL W q e H.
  destruct (getScreenshot_session newURL W q) as [E|E]; rewrite E in H.
  - contradiction.
  - eapply captureScreenshot_calls; eassumption.
Qed.

Lemma postScreenshot_calls :
  forall newURL W b e,
    In e (session (postScreenshot newURL W b)) ->
    call_matches (b_url b) (options_of b) e.
Proof.
  intros newURL W b e H.
  destruct (postScreenshot_session newURL W b) as [E|E]; rewrite E in H.
  - contradiction.
  - eapply captureScreenshot_calls; eassumption.
Qed.

(** Once the url and the dimensions are accepted, the answer is 200 or 500. *)
Lemma race_status :
  forall (r : bytes + string) (ok : bytes -> Handled) calls,
    (forall img, status (response (ok img)) = 200) ->
    status (response (match r with
                      | inl img => ok img
                      | inr message => fail message calls
                      end)) <> 400.
Proof.
  intros [img|m] ok calls Hok; [rewrite Hok|cbn]; discriminate.
Qed.

(** Whether [GET /screenshot] answers 400 is decided by the url, the width
    and the height alone. *)
Lemma getScreenshot_400_depends :
  forall newURL W q q',
    q_url q = q_url q' -> q_width q = q_width q' -> q_height q = q_height q' ->
    (status (response (getScreenshot newURL W q)) = 400 <->
     status (response (getScreenshot newURL W q')) = 400).
Proof.
  intros newURL W q q' Hu Hw Hh.
  unfold getScreenshot. rewrite Hu, Hw, Hh.
  destruct (negb (truthy (q_url q'))); [tauto|].
  destruct (negb (isValidUrl newURL (q_url q'))); [tauto|].
  destruct (_ || _); [tauto|].
  destruct (_ || _); [tauto|].
  split; intros H; exfalso; revert H; apply race_status; reflexivity.
Qed.

(** Whether [POST /screenshot] answers 400 is decided by the url alone. *)
Lemma postScreenshot_400_depends :
  forall newURL W url o o',
    status (response (postScreenshot newURL W (mkPostBody url o))) = 400 <->
    status (response (postScreenshot newURL W (mkPostBody url o'))) = 400.
Proof.
  intros newURL W url o o'.
  unfold postScreenshot. cbn [b_url b_options].
  destruct (negb (truthy url)); [tauto|].
  destruct (negb (isValidUrl newURL url)); [tauto|].
  split; intros H; exfalso; revert H; apply race_status; reflexivity.
Qed.



(** ** Validation of the request *)

(** C4. A request without a url ([undefined], or any other falsy value such
    as the empty string) is answered 400 with an error that names the URL,
    by [GET /screenshot] and by [POST /screenshot] alike; the capture is not
    started, so no browser call and no console output occur. *)
Theorem missing_url_is_client_error :
  forall newURL W q b,
    truthy (q_url q) = false ->
    truthy (b_url b) = false ->
    (status (response (getScreenshot newURL W q)) = 400 /\
     body (response (getScreenshot newURL W q)) =
       Json [("error", "URL parameter is required");
             ("example", "/screenshot?url=https://example.com&width=1200&height=800")] /\
     session (getScreenshot newURL W q) = [] /\
     handler_log (getScreenshot newURL W q) = []) /\
    (status (response (postScreenshot newURL W b)) = 400 /\
     body (response (postScreenshot newURL W b)) =
       Json [("error", "URL is required in request body")] /\
     session (postScreenshot newURL W b) = [] /\
     handler_log (postScreenshot newURL W b) = []).
Proof.
  intros newURL W q b Hq Hb.
  unfold getScreenshot, postScreenshot.
  rewrite Hq, Hb. simpl. repeat split.
Qed.

Lemma missing_url_is_client_error_witness :
  truthy (q_url query_no_url) = false /\
  truthy (b_url body_no_url) = false /\
  status (response (getScreenshot newURL_sample world_fine query_no_url)) = 400 /\
  session (postScreenshot newURL_sample world_fine body_no_url) = [].
Proof.
  split; [reflexivity|].
  split; [reflexivity|].
  pose proof (missing_url_is_client_error newURL_sample world_fine
                query_no_url body_no_url eq_refl eq_refl) as [[Hs _] [_ [_ [Hp _]]]].
  split; assumption.
Defined.

(** ** What the capture is asked to do *)

(** [x || d] is never [undefined] unless [d] is, so a destructuring default
    leaves it alone. *)
Lemma or_else_defined :
  forall v d d', d <> JUndefined -> default_to d' (or_else v d) = or_else v d.
Proof.
  intros v d d' Hd. unfold or_else.
  destruct (truthy v) eqn:T.
  - destruct v; try reflexivity. cbn in T. discriminate.
  - destruct d; try reflexivity. contradiction.
Qed.

Lemma wantsFullPage_default :
  forall v, wantsFullPage (default_to (JBool false) v) = wantsFullPage v.
Proof. intros []; reflexivity. Qed.

(** The literal of a [case] is the only value that selects it. *)
Lemma strict_eq_str_iff :
  forall v lit, strict_eq_str v lit = true <-> v = JStr lit.
Proof.
  intros v lit; split.
  - destruct v; cbn; try discriminate.
    intros H. apply String.eqb_eq in H. now subst.
  - intros ->. cbn. apply String.eqb_refl.
Qed.

Lemma wantsFullPage_true_iff :
  forall v, wantsFullPage v = true <-> v = JStr "true" \/ v = JBool true.
Proof.
  intros v. unfold wantsFullPage.
  rewrite orb_true_iff, strict_eq_str_iff.
  split; (intros [H|H]; [left; exact H|right]).
  - destruct v as [| |[|]|n|s]; try discriminate H. reflexivity.
  - subst v. reflexivity.
Qed.

Lemma playwrightWaitUntil_or_else :
  forall v,
    playwrightWaitUntil (default_to (JStr "networkidle") (or_else v (JStr "networkidle2")))
    = playwrightWaitUntil v.
Proof.
  intros v. rewrite or_else_defined by discriminate.
  unfold or_else. destruct (truthy v) eqn:T; [reflexivity|].
  destruct v as [| |[|]|[|z]|s]; try reflexivity; try discriminate T.
  cbn in T. apply negb_false_iff, String.eqb_eq in T. subst. reflexivity.
Qed.


(** For [GET /screenshot] the rectangle is the validated width and height. *)
Lemma getScreenshot_clip :
  forall newURL W q so,
    In (Screenshot so) (session (getScreenshot newURL W q)) ->
    so = if wantsFullPage (q_fullPage q)
         then mkScreenshotOptions "png" true None
         else mkScreenshotOptions "png" false
                (Some (mkClip 0 0 (Int (parseInt_or (q_width q) 1200))
                                  (Int (parseInt_or (q_height q) 800)))).
Proof.
  intros newURL W q so H.
  apply getScreenshot_calls in H. cbn in H. subst so.
  unfold screenshotOptions. rewrite wantsFullPage_default.
  destruct (wantsFullPage (q_fullPage q)); reflexivity.
Qed.

(** C10. The screenshot is a full-page one exactly when the [fullPage] option
    is the string "true" or the boolean [true]; with any other value the
    screenshot is clipped to the viewport rectangle, and the value never makes
    either handler answer 400. *)
Theorem full_page_only_for_true :
  forall newURL W W' q v u o' o'' url o so,
    In (Screenshot so) (trace (snd (captureScreenshot W url o start))) ->
    (so_fullPage so = true <->
     o_fullPage o = JStr "true" \/ o_fullPage o = JBool true) /\
    (so_fullPage so = false ->
     so_clip so =
       Some (mkClip 0 0 (parseInt (default_to (JNum (Int 1200)) (o_width o)))
                        (parseInt (default_to (JNum (Int 800)) (o_height o))))) /\
    (status (response (getScreenshot newURL W' (with_fullPage v q))) = 400 <->
     status (response (getScreenshot newURL W' q)) = 400) /\
    (status (response (postScreenshot newURL W' (mkPostBody u o'))) = 400 <->
     status (response (postScreenshot newURL W' (mkPostBody u o''))) = 400).
Proof.
  intros newURL W W' q v u o' o'' url o so H.
  apply captureScreenshot_calls in H. cbn in H. subst so.
  unfold screenshotOptions. cbn [so_fullPage so_clip].
  rewrite wantsFullPage_default.
  split; [apply wantsFullPage_true_iff|].
  split; [intros ->; reflexivity|].
  split; [apply getScreenshot_400_depends; reflexivity|].
  apply postScreenshot_400_depends.
Qed.

(** C8. [waitUntil] selects the Playwright wait condition: "load" gives
    "load", "domcontentloaded" gives "domcontentloaded", and "networkidle0",
    "networkidle2" and every other value give "networkidle"; every
    navigation uses the condition so selected, and the value never makes
    either handler answer 400. *)
Theorem wait_policy_mapping :
  forall newURL W q v u o' o'' wu target t,
    In (Goto target wu t) (session (getScreenshot newURL W q)) ->
    wu = playwrightWaitUntil (q_waitUntil q) /\
    playwrightWaitUntil (JStr "load") = "load" /\
    playwrightWaitUntil (JStr "domcontentloaded") = "domcontentloaded" /\
    playwrightWaitUntil (JStr "networkidle0") = "networkidle" /\
    playwrightWaitUntil (JStr "networkidle2") = "networkidle" /\
    (v <> JStr "load" -> v <> JStr "domcontentloaded" ->
     playwrightWaitUntil v = "networkidle") /\
    (status (response (getScreenshot newURL W (with_waitUntil v q))) = 400 <->
     status (response (getScreenshot newURL W q)) = 400) /\
    (status (response (postScreenshot newURL W (mkPostBody u o'))) = 400 <->
     status (response (postScreenshot newURL W (mkPostBody u o''))) = 400).
Proof.
  intros newURL W q v u o' o'' wu target t H.
  apply getScreenshot_calls in H. cbn in H. destruct H as (_ & -> & _).
  split; [apply playwrightWaitUntil_or_else|].
  repeat (split; [reflexivity|]).
  split.
  - intros H1 H2. unfold playwrightWaitUntil.
    destruct (strict_eq_str v "load") eqn:E1.
    + apply strict_eq_str_iff in E1. contradiction.
    + destruct (strict_eq_str v "domcontentloaded") eqn:E2; [|reflexivity].
      apply strict_eq_str_iff in E2. contradiction.
  - split; [apply getScreenshot_400_depends; reflexivity|].
    apply postScreenshot_400_depends.
Qed.

(** The same selection is made for [POST /screenshot], from the [waitUntil]
    of its options. *)
Lemma postScreenshot_wait_policy :
  forall newURL W b wu target t,
    In (Goto target wu t) (session (postScreenshot newURL W b)) ->
    wu = playwrightWaitUntil (default_to (JStr "networkidle") (o_waitUntil (options_of b))).
Proof.
  intros newURL W b wu target t H.
  apply postScreenshot_calls in H. cbn in H. tauto.
Qed.

(** ** Quality *)

(** C5 as stated fails: nothing clamps the quality.  With [quality=150] the
    encoder is called with 150. *)
Lemma quality_150_is_not_clamped :
  In (Webp (Int 150))
     (session (getScreenshot newURL_sample world_fine query_quality_150)) /\
  ~ (forall n,
       In (Webp n)
          (session (getScreenshot newURL_sample world_fine query_quality_150)) ->
       exists k, n = Int k /\ 1 <= k <= 100).
Proof.
  assert (H : In (Webp (Int 150))
                 (session (getScreenshot newURL_sample world_fine query_quality_150))).
  { vm_compute. tauto. }
  split; [exact H|].
  intros C. destruct (C _ H) as (k & E & Hk).
  injection E as <-. lia.
Qed.

(** C5, amended. The quality of a request is neither checked nor clamped:
    whatever its value, it never makes a handler answer 400, and when the
    encoder is called it is called with [parseInt] of the supplied value
    (80 when [GET] gets a falsy one or [POST] gets none), unchanged even when
    that lies outside 1..100. *)
Theorem quality_is_passed_on_unchanged :
  forall newURL W q u o o' x n,
    (In (Webp n) (session (getScreenshot newURL W q)) ->
     n = parseInt (or_else (q_quality q) (JNum (Int 80)))) /\
    (In (Webp n) (session (postScreenshot newURL W (mkPostBody u (Some o)))) ->
     n = parseInt (default_to (JNum (Int 80)) (o_quality o))) /\
    (status (response (getScreenshot newURL W (with_quality x q))) = 400 <->
     status (response (getScreenshot newURL W q)) = 400) /\
    (status (response (postScreenshot newURL W (mkPostBody u (Some o)))) = 400 <->
     status (response (postScreenshot newURL W (mkPostBody u (Some o')))) = 400).
Proof.
  intros newURL W q u o o' x n.
  split.
  { intros H. apply getScreenshot_calls in H. cbn in H.
    rewrite or_else_defined in H by discriminate. exact H. }
  split.
  { intros H. apply postScreenshot_calls in H. exact H. }
  split.
  - apply getScreenshot_400_depends; reflexivity.
  - apply postScreenshot_400_depends.
Qed.

(** ** Dimensions *)

(** C2 as stated fails: a width that is not a number is not rejected.
    [width=abc] is served, with the default width of 1200. *)
Lemma non_numeric_width_is_not_rejected :
  parseInt (q_width query_width_abc) = NaN /\
  status (response (getScreenshot newURL_sample world_fine query_width_abc)) = 200 /\
  In (NewContext (Int 1200) (Int 800) userAgent)
     (session (getScreenshot newURL_sample world_fine query_width_abc)) /\
  ~ (status (response (getScreenshot newURL_sample world_fine query_width_abc)) = 400 /\
     session (getScreenshot newURL_sample world_fine query_width_abc) = []).
Proof.
  split; [reflexivity|].
  split; [reflexivity|].
  split; [vm_compute; tauto|].
  intros [H _]. vm_compute in H. discriminate H.
Qed.

(** [POST /screenshot] does not look at the dimensions at all: a width of
    5000 reaches the browser. *)
Lemma post_does_not_check_dimensions :
  status (response (postScreenshot newURL_sample world_fine body_too_wide)) = 200 /\
  In (NewContext (Int 5000) (Int 800) userAgent)
     (session (postScreenshot newURL_sample world_fine body_too_wide)).
Proof.
  split; [reflexivity|]. vm_compute. tauto.
Qed.

Lemma parseInt_or_nonzero :
  forall v d n, parseInt v = Int n -> n <> 0 -> parseInt_or v d = n.
Proof.
  intros v d n E Hn. unfold parseInt_or. rewrite E.
  destruct (Z.eqb_spec n 0); [contradiction|reflexivity].
Qed.

Lemma parseInt_or_NaN :
  forall v d, parseInt v = NaN -> parseInt_or v d = d.
Proof.
  intros v d E. unfold parseInt_or. now rewrite E.
Qed.

Lemma out_of_range :
  forall n, (n <? 100) || (n >? 4000) = true <-> n < 100 \/ 4000 < n.
Proof.
  intros n. rewrite orb_true_iff, Z.ltb_lt, Z.gtb_ltb, Z.ltb_lt. tauto.
Qed.

(** C2, amended. In [GET /screenshot] with a url that is present and valid, a
    width or height that [parseInt] reads as a non-zero integer outside
    100..4000 is answered 400 with the message for the width (checked
    first) or the height, and no browser call is made; a width or height that
    [parseInt] cannot read is not rejected but served as the default
    (1200, 800). *)
Theorem get_rejects_out_of_range_dimensions :
  forall newURL W q,
    truthy (q_url q) = true ->
    isValidUrl newURL (q_url q) = true ->
    (forall w,
       parseInt (q_width q) = Int w -> w <> 0 -> (w < 100 \/ 4000 < w) ->
       getScreenshot newURL W q =
         reject [("error", "Width must be between 100 and 4000 pixels")]) /\
    (forall h,
       parseInt (q_height q) = Int h -> h <> 0 -> (h < 100 \/ 4000 < h) ->
       status (response (getScreenshot newURL W q)) = 400 /\
       (body (response (getScreenshot newURL W q)) =
          Json [("error", "Width must be between 100 and 4000 pixels")] \/
        body (response (getScreenshot newURL W q)) =
          Json [("error", "Height must be between 100 and 4000 pixels")]) /\
       session (getScreenshot newURL W q) = []) /\
    (parseInt (q_width q) = NaN ->
     getScreenshot newURL W q = getScreenshot newURL W (with_width JUndefined q)) /\
    (parseInt (q_height q) = NaN ->
     getScreenshot newURL W q = getScreenshot newURL W (with_height JUndefined q)).
Proof.
  intros newURL W q Hu Hv.
  unfold getScreenshot. cbn [q_url q_width q_height q_quality q_fullPage
    q_waitUntil q_timeout with_width with_height].
  rewrite Hu, Hv. cbn [negb].
  split; [|split; [|split]].
  - intros w E Hw0 Hw.
    rewrite (parseInt_or_nonzero _ _ _ E Hw0).
    apply out_of_range in Hw. now rewrite Hw.
  - intros h E Hh0 Hh.
    rewrite (parseInt_or_nonzero _ _ _ E Hh0).
    apply out_of_range in Hh. rewrite Hh. clear Hh.
    destruct (_ || _); cbn; auto.
  - intros E. rewrite (parseInt_or_NaN _ _ E). reflexivity.
  - intros E. rewrite (parseInt_or_NaN _ _ E). reflexivity.
Qed.

(** ** The url *)

Lemma isValidUrl_iff :
  forall newURL v, isValidUrl newURL v = true <-> http_or_https newURL v.
Proof.
  intros newURL v. unfold isValidUrl, http_or_https.
  destruct (newURL v) as [u|].
  - rewrite orb_true_iff, !String.eqb_eq. split.
    + intros H. exists u. tauto.
    + intros (u' & E & H). injection E as <-. exact H.
  - split; [discriminate|]. intros (u & E & _). discriminate E.
Qed.

Lemma getScreenshot_url_check :
  forall newURL W q,
    truthy (q_url q) = true ->
    (isValidUrl newURL (q_url q) = true ->
     body (response (getScreenshot newURL W q)) <>
       Json [("error", "Invalid URL format. Must include http:// or https://")]) /\
    (isValidUrl newURL (q_url q) = false ->
     getScreenshot newURL W q =
       reject [("error", "Invalid URL format. Must include http:// or https://")]).
Proof.
  intros newURL W q Hq. unfold getScreenshot. rewrite Hq. cbn [negb].
  split; intros ->; cbn [negb]; [|reflexivity].
  destruct (_ || _); [cbn; discriminate|].
  destruct (_ || _); [cbn; discriminate|].
  destruct (race _); cbn; discriminate.
Qed.

Lemma postScreenshot_url_check :
  forall newURL W b,
    truthy (b_url b) = true ->
    (isValidUrl newURL (b_url b) = true ->
     body (response (postScreenshot newURL W b)) <>
       Json [("error", "Invalid URL format. Must include http:// or https://")]) /\
    (isValidUrl newURL (b_url b) = false ->
     postScreenshot newURL W b =
       reject [("error", "Invalid URL format. Must include http:// or https://")]).
Proof.
  intros newURL W b Hb. unfold postScreenshot. rewrite Hb. cbn [negb].
  split; intros ->; cbn [negb]; [|reflexivity].
  destruct (race _); cbn; discriminate.
Qed.

(** C9. A url that is present is accepted exactly when [new URL] parses it and
    its scheme is http or https: then the answer is never the invalid-url
    error; otherwise [GET] and [POST] answer 400 with that error and no
    browser call is made. *)
Theorem url_accepted_iff_http_or_https :
  forall newURL W q b,
    truthy (q_url q) = true ->
    truthy (b_url b) = true ->
    (http_or_https newURL (q_url q) <->
     body (response (getScreenshot newURL W q)) <>
       Json [("error", "Invalid URL format. Must include http:// or https://")]) /\
    (~ http_or_https newURL (q_url q) ->
     getScreenshot newURL W q =
       reject [("error", "Invalid URL format. Must include http:// or https://")]) /\
    (http_or_https newURL (b_url b) <->
     body (response (postScreenshot newURL W b)) <>
       Json [("error", "Invalid URL format. Must include http:// or https://")]) /\
    (~ http_or_https newURL (b_url b) ->
     postScreenshot newURL W b =
       reject [("error", "Invalid URL format. Must include http:// or https://")]).
Proof.
  intros newURL W q b Hq Hb.
  rewrite <- !isValidUrl_iff.
  destruct (getScreenshot_url_check newURL W q Hq) as [Gok Gbad].
  destruct (postScreenshot_url_check newURL W b Hb) as [Pok Pbad].
  split; [split; [exact Gok|]|split; [|split; [split; [exact Pok|]|]]].
  - intros H. destruct (isValidUrl newURL (q_url q)); [reflexivity|].
    rewrite Gbad in H by reflexivity. now contradiction H.
  - intros H. apply Gbad. now apply not_true_is_false.
  - intros H. destruct (isValidUrl newURL (b_url b)); [reflexivity|].
    rewrite Pbad in H by reflexivity. now contradiction H.
  - intros H. apply Pbad. now apply not_true_is_false.
Qed.


(** ** The overall timeout *)

Lemma race_timer_wins :
  forall A (r : completion A * St),
    settles_in_time r = false -> race r = inr "Screenshot request timeout".
Proof.
  intros A [[a|e|] s]; cbn; intros H; try rewrite H; reflexivity.
Qed.

Lemma race_capture_wins :
  forall A (r : completion A * St),
    settles_in_time r = true ->
    race r = match fst r with
             | Normal a => inl a
             | Thrown e => inr e
             | Unsettled => inr "Screenshot request timeout"
             end.
Proof.
  intros A [[a|e|] s]; cbn; intros H; try rewrite H; reflexivity.
Qed.

(** Past validation, the two handlers answer with the winner of the race. *)
Lemma getScreenshot_past_validation :
  forall newURL W q,
    (status (response (getScreenshot newURL W q)) =? 400) = false ->
    getScreenshot newURL W q =
      match race (captureScreenshot W (q_url q) (options_of_query q) start) with
      | inl imageBuffer =>
          mkHandled
            (mkResponse 200
               [("Content-Type", "image/webp");
                ("Content-Length", decimal (Z.of_nat (List.length imageBuffer)));
                ("Cache-Control", "public, max-age=3600");
                ("X-Screenshot-URL", toString (q_url q));
                ("X-Screenshot-Dimensions",
                 decimal (parseInt_or (q_width q) 1200) ++ "x" ++
                 decimal (parseInt_or (q_height q) 800))]
               (Image imageBuffer))
            (trace (snd (captureScreenshot W (q_url q) (options_of_query q) start)))
            []
      | inr message =>
          fail message
            (trace (snd (captureScreenshot W (q_url q) (options_of_query q) start)))
      end.
Proof.
  intros newURL W q. unfold getScreenshot, options_of_query.
  destruct (negb (truthy (q_url q))); [discriminate|].
  destruct (negb (isValidUrl newURL (q_url q))); [discriminate|].
  destruct (_ || _); [discriminate|].
  destruct (_ || _); [discriminate|].
  reflexivity.
Qed.

Lemma postScreenshot_past_validation :
  forall newURL W b,
    (status (response (postScreenshot newURL W b)) =? 400) = false ->
    postScreenshot newURL W b =
      match race (captureScreenshot W (b_url b) (options_of b) start) with
      | inl imageBuffer =>
          mkHandled
            (mkResponse 200
               [("Content-Type", "image/webp");
                ("Content-Length", decimal (Z.of_nat (List.length imageBuffer)));
                ("Cache-Control", "public, max-age=3600")]
               (Image imageBuffer))
            (trace (snd (captureScreenshot W (b_url b) (options_of b) start)))
            []
      | inr message =>
          fail message (trace (snd (captureScreenshot W (b_url b) (options_of b) start)))
      end.
Proof.
  intros newURL W b. unfold postScreenshot, options_of.
  destruct (negb (truthy (b_url b))); [discriminate|].
  destruct (negb (isValidUrl newURL (b_url b))); [discriminate|].
  reflexivity.
Qed.

(** C3 as stated fails: the ceiling is not larger than every navigation
    timeout.  [timeout=90000] is passed on to [page.goto] as it is. *)
Lemma supplied_navigation_timeout_exceeds_ceiling :
  In (Goto (JStr "https://example.com") "networkidle" (Int 90000))
     (session (getScreenshot newURL_sample world_fine query_timeout_90000)) /\
  ~ (forall target wu t,
       In (Goto target wu t)
          (session (getScreenshot newURL_sample world_fine query_timeout_90000)) ->
       exists k, t = Int k /\ k < Z.of_N overallTimeoutMs).
Proof.
  assert (H : In (Goto (JStr "https://example.com") "networkidle" (Int 90000))
                 (session (getScreenshot newURL_sample world_fine
                             query_timeout_90000))).
  { vm_compute. tauto. }
  split; [exact H|].
  intros C. destruct (C _ _ _ H) as (k & E & Hk).
  injection E as <-. vm_compute in Hk. discriminate Hk.
Qed.

(** C3, amended. Once a request has passed validation, the capture races a
    timer of 60000 ms, whatever navigation timeout the request carries: if the
    capture has not settled when the timer fires, the answer is 500 with the
    message "Screenshot request timeout"; if it has, the answer is that of
    the capture.  No failure of the capture itself, a navigation timeout
    included, has that message.  The ceiling is larger than the default
    navigation timeout of 30000 ms, which is what [page.goto] gets when the
    request supplies none. *)
Theorem overall_timeout_ceiling :
  forall newURL W q b,
    (status (response (getScreenshot newURL W q)) =? 400) = false ->
    (status (response (postScreenshot newURL W b)) =? 400) = false ->
    (settles_in_time (captureScreenshot W (q_url q) (options_of_query q) start) = false ->
     getScreenshot newURL W q =
       fail "Screenshot request timeout"
         (trace (snd (captureScreenshot W (q_url q) (options_of_query q) start)))) /\
    (settles_in_time (captureScreenshot W (b_url b) (options_of b) start) = false ->
     postScreenshot newURL W b =
       fail "Screenshot request timeout"
         (trace (snd (captureScreenshot W (b_url b) (options_of b) start)))) /\
    (forall m,
       settles_in_time (captureScreenshot W (q_url q) (options_of_query q) start) = true ->
       fst (captureScreenshot W (q_url q) (options_of_query q) start) = Thrown m ->
       getScreenshot newURL W q =
         fail m (trace (snd (captureScreenshot W (q_url q) (options_of_query q) start)))) /\
    (forall m,
       settles_in_time (captureScreenshot W (b_url b) (options_of b) start) = true ->
       fst (captureScreenshot W (b_url b) (options_of b) start) = Thrown m ->
       postScreenshot newURL W b =
         fail m (trace (snd (captureScreenshot W (b_url b) (options_of b) start)))) /\
    (forall url o m,
       fst (captureScreenshot W url o start) = Thrown m ->
       m <> "Screenshot request timeout") /\
    (forall target wu t,
       truthy (q_timeout q) = false ->
       In (Goto target wu t) (session (getScreenshot newURL W q)) ->
       t = Int 30000) /\
    (forall target wu t,
       o_timeout (options_of b) = JUndefined ->
       In (Goto target wu t) (session (postScreenshot newURL W b)) ->
       t = Int 30000) /\
    30000 < Z.of_N overallTimeoutMs.
Proof.
  intros newURL W q b Hq Hb.
  rewrite (getScreenshot_past_validation _ _ _ Hq).
  rewrite (postScreenshot_past_validation _ _ _ Hb).
  split; [intros H; now rewrite (race_timer_wins _ _ H)|].
  split; [intros H; now rewrite (race_timer_wins _ _ H)|].
  split; [intros m H E; now rewrite (race_capture_wins _ _ H), E|].
  split; [intros m H E; now rewrite (race_capture_wins _ _ H), E|].
  split.
  { intros url o m E.
    destruct (captureScreenshot_failure_message _ _ _ _ E) as (cause & ->).
    cbn. discriminate. }
  split.
  { intros target wu t T H.
    rewrite <- (getScreenshot_past_validation _ _ _ Hq) in H.
    apply getScreenshot_calls in H. cbn in H. destruct H as (_ & _ & ->).
    unfold or_else. rewrite T. reflexivity. }
  split.
  { intros target wu t T H.
    rewrite <- (postScreenshot_past_validation _ _ _ Hb) in H.
    apply postScreenshot_calls in H. cbn in H. destruct H as (_ & _ & ->).
    rewrite T. reflexivity. }
  reflexivity.
Qed.

(** ** Releasing the browser *)

(** When the capture settles and no [close] call rejects, the [finally] block
    closes exactly the handles that were obtained, once each, the page first
    and the browser last, and after every other call. *)
Lemma settled_capture_closes_what_it_opened :
  forall W url o,
    unsettled (fst (captureScreenshot W url o start)) = false ->
    rejects (w_pageClose W) = false ->
    rejects (w_contextClose W) = false ->
    rejects (w_browserClose W) = false ->
    filter is_close (trace (snd (captureScreenshot W url o start))) =
      ((if page (snd (captureScreenshot W url o start)) then [PageClose] else []) ++
       (if context (snd (captureScreenshot W url o start)) then [ContextClose] else []) ++
       (if browser (snd (captureScreenshot W url o start)) then [BrowserClose] else []))%list /\
    trace (snd (captureScreenshot W url o start)) =
      (filter (fun e => negb (is_close e)) (trace (snd (captureScreenshot W url o start))) ++
       filter is_close (trace (snd (captureScreenshot W url o start))))%list.
Proof.
  intros W url o. explore.
  settle_cases; cbn; intros; try discriminate; split; reflexivity.
Qed.

(** A local holds a handle exactly when the calls up to the one that returns
    it were fulfilled. *)
Lemma handles_held :
  forall W url o,
    browser (snd (captureScreenshot W url o start)) = fulfils (w_launch W) /\
    context (snd (captureScreenshot W url o start)) =
      fulfils (w_launch W) &&
      fulfils (w_newContext W
                 (parseInt (default_to (JNum (Int 1200)) (o_width o)))
                 (parseInt (default_to (JNum (Int 800)) (o_height o)))) /\
    page (snd (captureScreenshot W url o start)) =
      fulfils (w_launch W) &&
      fulfils (w_newContext W
                 (parseInt (default_to (JNum (Int 1200)) (o_width o)))
                 (parseInt (default_to (JNum (Int 800)) (o_height o)))) &&
      fulfils (w_newPage W).
Proof.
  intros W url o. explore.
  settle_cases; cbn; repeat split; reflexivity.
Qed.

(** A [close] call that rejects never changes how the capture completes: the
    completion is the one the same capture has when teardown goes well. *)
Lemma teardown_failure_is_swallowed :
  forall W url o,
    pending (w_pageClose W) = false ->
    pending (w_contextClose W) = false ->
    pending (w_browserClose W) = false ->
    fst (captureScreenshot W url o start) =
    fst (captureScreenshot (with_clean_teardown W) url o start).
Proof.
  intros W url o. explore.
  settle_cases; cbn; intros; try discriminate; reflexivity.
Qed.

(** Whatever else the world does, when the capture settles with a page held
    and [page.close()] rejects, the [finally] block ends there: the rejection
    is logged, and the context and the browser, which are both held, are not
    closed. *)
Lemma rejected_page_close_ends_cleanup :
  forall W url o ms m,
    w_pageClose W = Rejects ms m ->
    unsettled (fst (captureScreenshot W url o start)) = false ->
    page (snd (captureScreenshot W url o start)) = true ->
    context (snd (captureScreenshot W url o start)) = true /\
    browser (snd (captureScreenshot W url o start)) = true /\
    filter is_close (trace (snd (captureScreenshot W url o start))) = [PageClose] /\
    In (ConsoleWarn "Cleanup warning:" m) (trace (snd (captureScreenshot W url o start))).
Proof.
  intros W url o ms m E. explore. rewrite E.
  settle_cases; cbn; intros; try discriminate;
    (split; [reflexivity|split; [reflexivity|split; [reflexivity|tauto]]]).
Qed.

(** C1, at the input where the code departs from it.  For
    [GET /screenshot?url=https://example.com&width=800&height=600], every call
    of the capture succeeds and then [page.close()] rejects: the image is
    served and the rejection logged, but [context.close()] and
    [browser.close()] are never called, although the context and the browser
    were obtained. *)
Theorem failed_page_close_leaves_browser_open :
  status (response (getScreenshot newURL_sample world_page_close_fails
                      query_800x600)) = 200 /\
  body (response (getScreenshot newURL_sample world_page_close_fails
                    query_800x600)) = Image webp_sample /\
  In Launch
     (session (getScreenshot newURL_sample world_page_close_fails query_800x600)) /\
  In (NewContext (Int 800) (Int 600) userAgent)
     (session (getScreenshot newURL_sample world_page_close_fails query_800x600)) /\
  In NewPage
     (session (getScreenshot newURL_sample world_page_close_fails query_800x600)) /\
  filter is_close
    (session (getScreenshot newURL_sample world_page_close_fails query_800x600)) =
    [PageClose] /\
  ~ In ContextClose
      (session (getScreenshot newURL_sample world_page_close_fails query_800x600)) /\
  ~ In BrowserClose
      (session (getScreenshot newURL_sample world_page_close_fails query_800x600)) /\
  In (ConsoleWarn "Cleanup warning:"
        "Protocol error (Target.closeTarget): Target closed")
     (session (getScreenshot newURL_sample world_page_close_fails query_800x600)).
Proof.
  assert (no_close : forall e,
            is_close e = true -> e <> PageClose ->
            ~ In e (session (getScreenshot newURL_sample world_page_close_fails
                               query_800x600))).
  { intros e Hc Hp H.
    assert (F : In e (filter is_close
                        (session (getScreenshot newURL_sample
                                    world_page_close_fails query_800x600)))).
    { apply filter_In. split; assumption. }
    vm_compute in F. destruct F as [F|[]]. apply Hp. symmetry. exact F. }
  split; [reflexivity|].
  split; [reflexivity|].
  split; [vm_compute; tauto|].
  split; [vm_compute; tauto|].
  split; [vm_compute; tauto|].
  split; [reflexivity|].
  split; [apply no_close; [reflexivity|discriminate]|].
  split; [apply no_close; [reflexivity|discriminate]|].
  vm_compute. tauto.
Qed.

(** The page never becomes idle within the navigation timeout: 500 with the
    cause, and the session is released. *)
Example navigation_timeout_is_released :
  response (getScreenshot newURL_sample world_page_never_idle query_plain) =
    mkResponse 500 []
      (Json [("error", "Failed to capture screenshot");
             ("message", "Screenshot failed: page.goto: Timeout exceeded")]) /\
  filter is_close
    (session (getScreenshot newURL_sample world_page_never_idle query_plain)) =
    [PageClose; ContextClose; BrowserClose].
Proof. split; reflexivity. Qed.

(** The timer of the handler answers the request and cancels nothing: with
    [timeout=0] on the same page the navigation never settles, the [finally]
    block is never reached and nothing is closed. *)
Example stalled_capture_is_not_released :
  response (getScreenshot newURL_sample world_page_never_idle query_timeout_0) =
    mkResponse 500 []
      (Json [("error", "Failed to capture screenshot");
             ("message", "Screenshot request timeout")]) /\
  In Launch
     (session (getScreenshot newURL_sample world_page_never_idle query_timeout_0)) /\
  filter is_close
    (session (getScreenshot newURL_sample world_page_never_idle query_timeout_0)) =
    [].
Proof.
  split; [reflexivity|]. split; [|reflexivity]. vm_compute. tauto.
Qed.

(** ** The properties at concrete requests *)


Lemma full_page_only_for_true_witness :
  In (Screenshot clipped_1200x800)
     (trace (snd (captureScreenshot world_fine (JStr "https://example.com")
                    options_full_page_yes start))) /\
  (so_fullPage clipped_1200x800 = true <->
   o_fullPage options_full_page_yes = JStr "true" \/
   o_fullPage options_full_page_yes = JBool true) /\
  (status (response (getScreenshot newURL_sample world_fine
                       (with_fullPage (JStr "yes") query_plain))) = 400 <->
   status (response (getScreenshot newURL_sample world_fine query_plain)) = 400).
Proof.
  assert (H : In (Screenshot clipped_1200x800)
                 (trace (snd (captureScreenshot world_fine
                                (JStr "https://example.com")
                                options_full_page_yes start)))).
  { vm_compute. tauto. }
  split; [exact H|].
  destruct (full_page_only_for_true newURL_sample world_fine world_fine
              query_plain (JStr "yes") JUndefined None None _ _ _ H)
    as (Hfull & _ & Hget & _).
  split; [exact Hfull|exact Hget].
Defined.

Lemma wait_policy_mapping_witness :
  In (Goto (JStr "https://example.com") "load" (Int 30000))
     (session (getScreenshot newURL_sample world_fine query_wait_load)) /\
  "load" = playwrightWaitUntil (q_waitUntil query_wait_load) /\
  playwrightWaitUntil (JStr "fast") = "networkidle".
Proof.
  assert (H : In (Goto (JStr "https://example.com") "load" (Int 30000))
                 (session (getScreenshot newURL_sample world_fine query_wait_load))).
  { vm_compute. tauto. }
  split; [exact H|].
  destruct (wait_policy_mapping newURL_sample world_fine query_wait_load
              (JStr "fast") JUndefined None None _ _ _ H)
    as (Hwu & _ & _ & _ & _ & Hother & _).
  split; [exact Hwu|].
  apply Hother; discriminate.
Defined.

Lemma quality_is_passed_on_unchanged_witness :
  In (Webp (Int 150))
     (session (getScreenshot newURL_sample world_fine query_quality_150)) /\
  Int 150 = parseInt (or_else (q_quality query_quality_150) (JNum (Int 80))).
Proof.
  assert (H : In (Webp (Int 150))
                 (session (getScreenshot newURL_sample world_fine
                             query_quality_150))).
  { vm_compute. tauto. }
  split; [exact H|].
  destruct (quality_is_passed_on_unchanged newURL_sample world_fine
              query_quality_150 JUndefined no_options no_options JUndefined
              (Int 150)) as (Hget & _).
  exact (Hget H).
Defined.

Lemma get_rejects_out_of_range_dimensions_witness :
  truthy (q_url query_too_wide) = true /\
  isValidUrl newURL_sample (q_url query_too_wide) = true /\
  parseInt (q_width query_too_wide) = Int 5000 /\
  getScreenshot newURL_sample world_fine query_too_wide =
    reject [("error", "Width must be between 100 and 4000 pixels")] /\
  parseInt (q_width query_width_abc) = NaN /\
  getScreenshot newURL_sample world_fine query_width_abc =
    getScreenshot newURL_sample world_fine (with_width JUndefined query_width_abc).
Proof.
  split; [reflexivity|].
  split; [reflexivity|].
  split; [reflexivity|].
  destruct (get_rejects_out_of_range_dimensions newURL_sample world_fine
              query_too_wide eq_refl eq_refl) as (Hwide & _).
  split; [apply (Hwide 5000); [reflexivity|lia|lia]|].
  split; [reflexivity|].
  destruct (get_rejects_out_of_range_dimensions newURL_sample world_fine
              query_width_abc eq_refl eq_refl) as (_ & _ & Hnan & _).
  exact (Hnan eq_refl).
Defined.

Lemma url_accepted_iff_http_or_https_witness :
  truthy (q_url query_not_a_url) = true /\
  truthy (b_url body_ftp) = true /\
  getScreenshot newURL_sample world_fine query_not_a_url =
    reject [("error", "Invalid URL format. Must include http:// or https://")] /\
  postScreenshot newURL_sample world_fine body_ftp =
    reject [("error", "Invalid URL format. Must include http:// or https://")].
Proof.
  split; [reflexivity|].
  split; [reflexivity|].
  destruct (url_accepted_iff_http_or_https newURL_sample world_fine
              query_not_a_url body_ftp eq_refl eq_refl)
    as (_ & Hget & _ & Hpost).
  split.
  - apply Hget. intros (u & E & _). vm_compute in E. discriminate E.
  - apply Hpost. intros (u & E & [H|H]); vm_compute in E;
      injection E as <-; discriminate H.
Defined.


Lemma overall_timeout_ceiling_witness :
  (status (response (getScreenshot newURL_sample world_slow_page query_plain)) =? 400) = false /\
  (status (response (postScreenshot newURL_sample world_slow_page body_plain)) =? 400) = false /\
  settles_in_time
    (captureScreenshot world_slow_page (q_url query_plain)
       (options_of_query query_plain) start) = false /\
  status (response (getScreenshot newURL_sample world_slow_page query_plain)) = 500 /\
  body (response (getScreenshot newURL_sample world_slow_page query_plain)) =
    Json [("error", "Failed to capture screenshot");
          ("message", "Screenshot request timeout")].
Proof.
  split; [reflexivity|].
  split; [reflexivity|].
  split; [reflexivity|].
  destruct (overall_timeout_ceiling newURL_sample world_slow_page query_plain
              body_plain eq_refl eq_refl) as (Hget & _).
  rewrite (Hget eq_refl). split; reflexivity.
Defined.
(** ** More on the capture *)

Lemma in_range :
  forall n, (n <? 100) || (n >? 4000) = false -> 100 <= n <= 4000.
Proof.
  intros n H. apply orb_false_iff in H. destruct H as [H1 H2].
  apply Z.ltb_ge in H1. rewrite Z.gtb_ltb in H2. apply Z.ltb_ge in H2. lia.
Qed.

(** The viewport [GET /screenshot] opens is the validated one: integers in
    100..4000, the supplied values or the defaults. *)
Theorem get_viewport_within_bounds :
  forall newURL W q w h ua,
    In (NewContext w h ua) (session (getScreenshot newURL W q)) ->
    w = Int (parseInt_or (q_width q) 1200) /\
    h = Int (parseInt_or (q_height q) 800) /\
    100 <= parseInt_or (q_width q) 1200 <= 4000 /\
    100 <= parseInt_or (q_height q) 800 <= 4000.
Proof.
  intros newURL W q w h ua H.
  pose proof (getScreenshot_calls _ _ _ _ H) as C. cbn in C.
  destruct C as (-> & -> & _).
  split; [reflexivity|]. split; [reflexivity|].
  revert H. unfold getScreenshot.
  destruct (negb (truthy (q_url q))); [cbn; intros []|].
  destruct (negb (isValidUrl newURL (q_url q))); [cbn; intros []|].
  destruct (_ || _) eqn:Ew; [cbn; intros []|].
  destruct ((parseInt_or (q_height q) 800 <? 100) || _) eqn:Eh; [cbn; intros []|].
  intros _. split; apply in_range; assumption.
Qed.

(** A width or height that [parseInt] reads as zero ("0", "0px", "-0") is not
    rejected by [GET /screenshot]: it is served as if it had been left out. *)
Theorem get_zero_dimension_is_defaulted :
  forall newURL W q q',
    parseInt (q_width q) = Int 0 ->
    parseInt (q_height q') = Int 0 ->
    getScreenshot newURL W q = getScreenshot newURL W (with_width JUndefined q) /\
    getScreenshot newURL W q' = getScreenshot newURL W (with_height JUndefined q').
Proof.
  intros newURL W q q' Hw Hh.
  unfold getScreenshot, parseInt_or.
  cbn [q_url q_width q_height q_quality q_fullPage q_waitUntil q_timeout
       with_width with_height].
  rewrite Hw, Hh. split; reflexivity.
Qed.

(** When [chromium.launch] rejects, the capture fails with the fixed message
    of [createBrowser]: the cause goes to the console only, nothing else is
    called and, no handle being held, nothing is closed. *)
Theorem launch_failure_hides_cause :
  forall W url o ms m,
    w_launch W = Rejects ms m ->
    captureScreenshot W url o start =
      (Thrown "Screenshot failed: Failed to create browser instance",
       mkSt ms
         [ConsoleLog "Creating new Chromium browser instance..."; Launch;
          ConsoleError "Failed to create browser instance:" m]
         false false false).
Proof.
  intros W url o ms m E. unfold_async. rewrite E. reflexivity.
Qed.


(** The calls of the pipeline are made in its order, each at most once and
    none unless all the earlier ones were made: nothing is retried and
    nothing is skipped, whatever the world does. *)
Theorem capture_calls_in_pipeline_order :
  forall W url o,
    steps (trace (snd (captureScreenshot W url o start))) =
      seq 0 (List.length (steps (trace (snd (captureScreenshot W url o start))))) /\
    (List.length (steps (trace (snd (captureScreenshot W url o start)))) <= 6)%nat.
Proof.
  intros W url o. explore.
  settle_cases; cbn; split; try reflexivity; lia.
Qed.








(** [POST /screenshot] hands the dimensions of its options to the browser as
    [parseInt] reads them, whatever they are: once the browser is launched,
    the context is asked for with them. *)
Theorem post_viewport_is_unchecked :
  forall newURL W url o ms,
    truthy url = true ->
    isValidUrl newURL url = true ->
    w_launch W = Fulfils ms tt ->
    In (NewContext (parseInt (default_to (JNum (Int 1200)) (o_width o)))
                   (parseInt (default_to (JNum (Int 800)) (o_height o)))
                   userAgent)
       (session (postScreenshot newURL W (mkPostBody url (Some o)))).
Proof.
  intros newURL W url o ms T V L.
  unfold postScreenshot. cbn [b_url b_options options_of]. rewrite T, V.
  cbn [negb]. cbv zeta.
  assert (H : In (NewContext (parseInt (default_to (JNum (Int 1200)) (o_width o)))
                   (parseInt (default_to (JNum (Int 800)) (o_height o)))
                   userAgent)
                 (trace (snd (captureScreenshot W url o start)))).
  { explore. rewrite L. settle_cases; cbn; tauto. }
  destruct (race _); exact H.
Qed.

(** ** Numbers as text *)

Lemma parseDigits_digit :
  forall r c s acc v,
    digitValue c = Some v -> (v <? r) = true ->
    parseDigits r (String c s) acc =
      parseDigits r s (Some (r * match acc with Some a => a | None => 0 end + v)).
Proof.
  intros r c s acc v Hc Hv. cbn [parseDigits]. now rewrite Hc, Hv.
Qed.

Lemma parseDigits_stop :
  forall s acc, stops_decimal s = true -> parseDigits 10 s acc = acc.
Proof.
  intros [|c r] acc H; [reflexivity|].
  cbn in H. cbn [parseDigits].
  destruct (digitValue c) as [v|]; [|reflexivity].
  apply negb_true_iff in H. now rewrite H.
Qed.

Lemma parseDigits_decimal :
  forall d rest acc,
    stops_decimal rest = true ->
    d <> Decimal.Nil ->
    parseDigits 10 (NilEmpty.string_of_uint d ++ rest) acc =
      Some (uint_value d match acc with Some a => a | None => 0 end).
Proof.
  assert (G : forall d rest a,
             stops_decimal rest = true ->
             parseDigits 10 (NilEmpty.string_of_uint d ++ rest) (Some a) =
               Some (uint_value d a)).
  { induction d; intros rest a Hr;
      cbn [NilEmpty.string_of_uint append uint_value];
      [now apply parseDigits_stop|..];
      (erewrite parseDigits_digit; [|reflexivity|reflexivity]);
      apply IHd; exact Hr. }
  intros d rest acc Hr Hd.
  destruct d; try contradiction;
    cbn [NilEmpty.string_of_uint append uint_value];
    (erewrite parseDigits_digit; [|reflexivity|reflexivity]);
    apply G; exact Hr.
Qed.

Lemma uint_value_spec :
  forall d a,
    uint_value d a =
      a * 10 ^ Z.of_N (DecimalPos.Unsigned.usize d) +
      Z.of_N (DecimalPos.Unsigned.of_lu (Decimal.rev d)).
Proof.
  induction d; intros a; cbn [uint_value DecimalPos.Unsigned.usize];
    [cbn; lia|..].
  all: rewrite IHd.
  all: set (r := DecimalPos.Unsigned.of_lu (Decimal.rev d)).
  all: unfold Decimal.rev; cbn [Decimal.revapp].
  all: rewrite (DecimalPos.Unsigned.of_lu_revapp d); fold r.
  all: rewrite N2Z.inj_succ, Z.pow_succ_r by apply N2Z.is_nonneg.
  all: rewrite N2Z.inj_add, N2Z.inj_mul, N2Z.inj_pow.
  all: cbn [DecimalPos.Unsigned.of_lu]; rewrite N.mul_0_r, ?N.add_0_r.
  all: cbn [Z.of_N]; lia.
Qed.

Lemma uint_value_of_uint :
  forall d, uint_value d 0 = Z.of_N (Pos.of_uint d).
Proof.
  intros d. rewrite uint_value_spec, DecimalPos.Unsigned.of_uint_alt. lia.
Qed.

(** [parseInt] on a string that starts with neither white space, a sign nor
    a hexadecimal prefix reads decimal digits from its start. *)
Lemma parseIntString_plain :
  forall c s,
    isWhiteSpace c = false ->
    c <> "-"%char -> c <> "+"%char ->
    (c = "0"%char -> no_hex_mark s = true) ->
    parseIntString (String c s) =
      match parseDigits 10 (String c s) None with
      | None => NaN
      | Some m => Int m
      end /\
    parseIntString (String "-" (String c s)) =
      match parseDigits 10 (String c s) None with
      | None => NaN
      | Some m => Int (- m)
      end.
Proof.
  intros c s Hw Hm Hp Hx.
  unfold parseIntString. cbn [trimStart].
  replace (isWhiteSpace "-") with false by reflexivity.
  rewrite Hw.
  destruct c as [[] [] [] [] [] [] [] []];
    try (exfalso; apply Hm; reflexivity);
    try (exfalso; apply Hp; reflexivity);
    try (split; reflexivity).
  specialize (Hx eq_refl).
  destruct s as [|c' r]; [split; reflexivity|].
  destruct c' as [[] [] [] [] [] [] [] []]; try discriminate Hx;
    split; reflexivity.
Qed.

Lemma string_of_uint_head :
  forall d rest,
    d <> Decimal.Nil ->
    (d = Decimal.zero -> no_hex_mark rest = true) ->
    exists c s,
      (NilEmpty.string_of_uint d ++ rest)%string = String c s /\
      isWhiteSpace c = false /\ c <> "-"%char /\ c <> "+"%char /\
      (c = "0"%char -> no_hex_mark s = true).
Proof.
  intros d rest Hd Hz.
  destruct d as [|d|d|d|d|d|d|d|d|d|d]; try contradiction;
    cbn [NilEmpty.string_of_uint append];
    eexists; eexists; (split; [reflexivity|]);
    (split; [reflexivity|]);
    (split; [discriminate|]); (split; [discriminate|]);
    try (intros F; discriminate F).
  intros _.
  destruct d as [|d|d|d|d|d|d|d|d|d|d]; try reflexivity.
  apply Hz; reflexivity.
Qed.

Lemma parseIntString_digits :
  forall d rest,
    d <> Decimal.Nil ->
    (d = Decimal.zero -> no_hex_mark rest = true) ->
    stops_decimal rest = true ->
    parseIntString (NilEmpty.string_of_uint d ++ rest) = Int (uint_value d 0) /\
    parseIntString (String "-" (NilEmpty.string_of_uint d ++ rest)) =
      Int (- uint_value d 0).
Proof.
  intros d rest Hd Hz Hr.
  pose proof (parseDigits_decimal d rest None Hr Hd) as P.
  destruct (string_of_uint_head d rest Hd Hz) as (c & s & E & Hw & Hm & Hp & Hx).
  rewrite E in *.
  destruct (parseIntString_plain c s Hw Hm Hp Hx) as [A B].
  rewrite A, B, P. split; reflexivity.
Qed.

(** An integer printed in decimal, whatever follows it that is not a digit,
    is read back by [parseInt] as itself; a lone "0" must not be followed by
    an [x], which would make a hexadecimal prefix. *)
Lemma parseIntString_decimal :
  forall z rest,
    stops_decimal rest = true ->
    (z = 0 -> no_hex_mark rest = true) ->
    parseIntString (decimal z ++ rest) = Int z.
Proof.
  intros z rest Hr Hz. unfold decimal.
  destruct z as [|p|p]; cbn [Z.to_int NilZero.string_of_int].
  - specialize (Hz eq_refl).
    destruct (parseIntString_digits Decimal.zero rest) as [A _];
      [discriminate|intros _; exact Hz|exact Hr|].
    exact A.
  - pose proof (DecimalPos.Unsigned.to_uint_nonnil p) as Hn.
    pose proof (DecimalPos.Unsigned.to_uint_nonzero p) as Hnz.
    destruct (parseIntString_digits (Pos.to_uint p) rest) as [A _];
      [exact Hn|intros F; contradiction|exact Hr|].
    unfold NilZero.string_of_uint.
    destruct (Pos.to_uint p) eqn:E; try contradiction;
      rewrite A, uint_value_of_uint, <- E, DecimalPos.Unsigned.of_to;
      reflexivity.
  - pose proof (DecimalPos.Unsigned.to_uint_nonnil p) as Hn.
    pose proof (DecimalPos.Unsigned.to_uint_nonzero p) as Hnz.
    destruct (parseIntString_digits (Pos.to_uint p) rest) as [_ B];
      [exact Hn|intros F; contradiction|exact Hr|].
    unfold NilZero.string_of_uint. cbn [append].
    destruct (Pos.to_uint p) eqn:E; try contradiction;
      rewrite B, uint_value_of_uint, <- E, DecimalPos.Unsigned.of_to;
      reflexivity.
Qed.

Lemma append_empty : forall s : string, (s ++ "")%string = s.
Proof.
  induction s as [|c s IH]; [reflexivity|]. cbn. now rewrite IH.
Qed.





(** ** Options that read alike *)

(** [captureScreenshot] reads its options only through [parseInt], the
    [fullPage] test and the [waitUntil] switch. *)
Lemma captureScreenshot_ext :
  forall W url o o',
    parseInt (default_to (JNum (Int 1200)) (o_width o)) =
      parseInt (default_to (JNum (Int 1200)) (o_width o')) ->
    parseInt (default_to (JNum (Int 800)) (o_height o)) =
      parseInt (default_to (JNum (Int 800)) (o_height o')) ->
    parseInt (default_to (JNum (Int 80)) (o_quality o)) =
      parseInt (default_to (JNum (Int 80)) (o_quality o')) ->
    wantsFullPage (default_to (JBool false) (o_fullPage o)) =
      wantsFullPage (default_to (JBool false) (o_fullPage o')) ->
    playwrightWaitUntil (default_to (JStr "networkidle") (o_waitUntil o)) =
      playwrightWaitUntil (default_to (JStr "networkidle") (o_waitUntil o')) ->
    parseInt (default_to (JNum (Int 30000)) (o_timeout o)) =
      parseInt (default_to (JNum (Int 30000)) (o_timeout o')) ->
    captureScreenshot W url o = captureScreenshot W url o'.
Proof.
  intros W url o o' Hw Hh Hq Hf Hu Ht.
  unfold captureScreenshot, screenshotOptions.
  rewrite Hw, Hh, Hq, Hf, Hu, Ht. reflexivity.
Qed.

Lemma documented_default_cases :
  forall name d,
    documented_default name = Some d ->
    (name = "width" /\ d = JsNum 1200) \/
    (name = "height" /\ d = JsNum 800) \/
    (name = "quality" /\ d = JsNum 80) \/
    (name = "fullPage" /\ d = JsBool false) \/
    (name = "waitUntil" /\ d = JsStr "networkidle2") \/
    (name = "timeout" /\ d = JsNum 30000).
Proof.
  intros name d. unfold documented_default, apiDocs.
  repeat (cbn [json_get json_field]; key_case);
    cbn [json_get json_field]; intros H; try discriminate H;
    injection H as <-; tauto.
Qed.

(** Leaving an optional parameter of [GET /screenshot] out is the same as
    sending the default that [/api/docs] documents for it: the same calls
    are made and the same response is sent. *)
Theorem documented_defaults_are_applied :
  forall newURL W q name d,
    documented_default name = Some d ->
    param name q = Some JUndefined ->
    getScreenshot newURL W (with_param name (query_text d) q) =
    getScreenshot newURL W q.
Proof.
  intros newURL W q name d Hd Hp.
  destruct (documented_default_cases _ _ Hd)
    as [[-> ->]|[[-> ->]|[[-> ->]|[[-> ->]|[[-> ->]|[-> ->]]]]]];
    cbn in Hp; injection Hp as Hp;
    cbn [with_param String.eqb Ascii.eqb Bool.eqb query_text];
    unfold getScreenshot;
    cbn [q_url q_width q_height q_quality q_fullPage q_waitUntil q_timeout
         with_width with_height with_quality with_fullPage with_waitUntil
         with_timeout];
    rewrite Hp.
  - reflexivity.
  - reflexivity.
  - destruct (negb (truthy (q_url q))); [reflexivity|].
    destruct (negb (isValidUrl newURL (q_url q))); [reflexivity|].
    destruct (_ || _); [reflexivity|].
    destruct (_ || _); [reflexivity|].
    erewrite captureScreenshot_ext; reflexivity.
  - destruct (negb (truthy (q_url q))); [reflexivity|].
    destruct (negb (isValidUrl newURL (q_url q))); [reflexivity|].
    destruct (_ || _); [reflexivity|].
    destruct (_ || _); [reflexivity|].
    erewrite captureScreenshot_ext; reflexivity.
  - reflexivity.
  - destruct (negb (truthy (q_url q))); [reflexivity|].
    destruct (negb (isValidUrl newURL (q_url q))); [reflexivity|].
    destruct (_ || _); [reflexivity|].
    destruct (_ || _); [reflexivity|].
    erewrite captureScreenshot_ext; reflexivity.
Qed.

(** ** Routes and process events *)

Lemma getScreenshot_status :
  forall newURL W q,
    status (response (getScreenshot newURL W q)) = 400 \/
    status (response (getScreenshot newURL W q)) = 200 \/
    status (response (getScreenshot newURL W q)) = 500.
Proof.
  intros newURL W q. unfold getScreenshot.
  destruct (negb (truthy (q_url q))); [left; reflexivity|].
  destruct (negb (isValidUrl newURL (q_url q))); [left; reflexivity|].
  destruct (_ || _); [left; reflexivity|].
  destruct (_ || _); [left; reflexivity|].
  destruct (race _); cbn; tauto.
Qed.

Lemma postScreenshot_status :
  forall newURL W b,
    status (response (postScreenshot newURL W b)) = 400 \/
    status (response (postScreenshot newURL W b)) = 200 \/
    status (response (postScreenshot newURL W b)) = 500.
Proof.
  intros newURL W b. unfold postScreenshot.
  destruct (negb (truthy (b_url b))); [left; reflexivity|].
  destruct (negb (isValidUrl newURL (b_url b))); [left; reflexivity|].
  destruct (race _); cbn; tauto.
Qed.

(** Only the last handler answers 404. *)
Lemma appRoutes_404 :
  forall matches newURL env W r,
    status_of (appRoutes matches newURL env W r) = 404 ->
    appRoutes matches newURL env W r = notFound.
Proof.
  intros matches newURL env W r. unfold appRoutes.
  destruct (_ && _); [discriminate|].
  destruct (_ && _).
  { cbn. destruct (getScreenshot_status newURL W (r_query r)) as [E|[E|E]];
      rewrite E; discriminate. }
  destruct (_ && _).
  { cbn. destruct (postScreenshot_status newURL W (r_body r)) as [E|[E|E]];
      rewrite E; discriminate. }
  destruct (_ && _); [discriminate|].
  reflexivity.
Qed.

(** The 404 body and [/api/docs] advertise only what is served: a GET of any
    path listed in [availableEndpoints], and a request with the method and
    path of any key of the documented [endpoints], is never answered 404. *)
Theorem advertised_endpoints_are_routed :
  forall matches newURL env W r r' p key,
    (forall x, matches x x = true) ->
    In p (strings_of (json_get "availableEndpoints" notFoundBody)) ->
    r_method r = MGet ->
    r_path r = p ->
    In key (keys_of (json_get "endpoints" apiDocs)) ->
    r_method r' = method_named (before_space key) ->
    r_path r' = after_space key ->
    status_of (appRoutes matches newURL env W r) <> 404 /\
    status_of (appRoutes matches newURL env W r') <> 404.
Proof.
  intros matches newURL env W r r' p key Hm Hp Hg Hr Hk Hg' Hr'.
  split; intros F; apply appRoutes_404 in F; revert F; unfold appRoutes.
  - rewrite Hg, Hr. cbn [is_get is_post andb].
    cbn in Hp. destruct Hp as [<-|[<-|[<-|[]]]]; rewrite ?Hm;
      repeat (destruct (matches _ _); cbn [andb]);
      unfold health, docs, notFound; discriminate.
  - rewrite Hg', Hr'.
    cbn in Hk. destruct Hk as [<-|[<-|[<-|[]]]];
      cbn [before_space after_space method_named String.eqb Ascii.eqb
           Bool.eqb is_get is_post andb];
      rewrite ?Hm;
      repeat (destruct (matches _ _); cbn [andb]);
      unfold health, docs, notFound; discriminate.
Qed.

(** Every process event that ends the process ends it with exit code 0,
    after "Server shutdown complete"; the one event that does not end it is
    an unhandled rejection when [NODE_ENV] is "production". *)
Theorem process_ends_with_exit_code_zero :
  forall env e,
    (exit_code (on_process_event env e) = Some 0 /\
     List.last (printed (on_process_event env e)) (ConsoleLog "")
       = ConsoleLog "Server shutdown complete") \/
    (exit_code (on_process_event env e) = None /\
     NODE_ENV env = JStr "production" /\
     exists reason, e = UnhandledRejection reason).
Proof.
  intros env [| |error|reason]; try (left; split; reflexivity).
  cbn [on_process_event].
  destruct (strict_eq_str (NODE_ENV env) "production") eqn:E.
  - right. apply strict_eq_str_iff in E. cbn. eauto.
  - left. split; reflexivity.
Qed.

(** ** The error-handling tests against the routes *)

(** A GET of [/screenshot] on the server is answered by its handler, with
    the query string as [req.query]. *)
Lemma serve_screenshot :
  forall matches newURL render env W url target q,
    matches "/health" "/screenshot" = false ->
    matches "/screenshot" "/screenshot" = true ->
    strip_prefix SERVER_URL url = Some target ->
    fst (cut_at "?" target) = "/screenshot" ->
    query_of (parse_search (snd (cut_at "?" target))) = q ->
    exists headers data,
      serve matches newURL render env W url =
        HttpResponse (status (response (getScreenshot newURL W q))) headers data.
Proof.
  intros matches newURL render env W url target q Hh Hs Hu Hp Hq.
  unfold serve. rewrite Hu.
  destruct (cut_at "?" target) as [path search]. cbn in Hp, Hq. subst path q.
  unfold appRoutes. cbn [r_method r_path r_query is_get andb].
  rewrite Hh, Hs. eauto.
Qed.

(** The three tests of [testErrorHandling] pass against the handlers
    whatever the browser does: each is answered 400 before any capture. *)
Theorem error_tests_pass_in_every_world :
  forall matches newURL render env W,
    matches "/health" "/screenshot" = false ->
    matches "/screenshot" "/screenshot" = true ->
    newURL (JStr "invalid-url") = None ->
    http_or_https newURL (JStr "https://example.com") ->
    testErrorHandling (serve matches newURL render env W) =
      ([ConsoleLog (newline ++ "🚨 Testing error handling...");
        ConsoleLog "✅ Missing URL parameter - correctly returned 400";
        ConsoleLog "✅ Invalid URL format - correctly returned 400";
        ConsoleLog "✅ Invalid dimensions - correctly returned 400"],
       3%nat).
Proof.
  intros matches newURL render env W Hh Hs Hbad Hok.
  apply isValidUrl_iff in Hok.
  assert (Hinv : isValidUrl newURL (JStr "invalid-url") = false).
  { unfold isValidUrl. now rewrite Hbad. }
  destruct (serve_screenshot matches newURL render env W
              (SERVER_URL ++ "/screenshot") "/screenshot"
              (mkQuery JUndefined JUndefined JUndefined JUndefined JUndefined
                 JUndefined JUndefined) Hh Hs eq_refl eq_refl eq_refl)
    as (h1 & d1 & E1).
  destruct (serve_screenshot matches newURL render env W
              (SERVER_URL ++ "/screenshot?url=invalid-url")
              "/screenshot?url=invalid-url"
              (mkQuery (JStr "invalid-url") JUndefined JUndefined JUndefined
                 JUndefined JUndefined JUndefined) Hh Hs eq_refl eq_refl eq_refl)
    as (h2 & d2 & E2).
  destruct (serve_screenshot matches newURL render env W
              (SERVER_URL ++
               "/screenshot?url=https://example.com&width=5000&height=5000")
              "/screenshot?url=https://example.com&width=5000&height=5000"
              (mkQuery (JStr "https://example.com") (JStr "5000") (JStr "5000")
                 JUndefined JUndefined JUndefined JUndefined)
              Hh Hs eq_refl eq_refl eq_refl)
    as (h3 & d3 & E3).
  unfold testErrorHandling, errorTests.
  cbn [runErrorTests et_endpoint et_name et_expectedStatus].
  rewrite E1, E2, E3.
  unfold getScreenshot.
  cbn [q_url q_width q_height truthy negb String.eqb].
  rewrite Hinv, Hok.
  reflexivity.
Qed.

(** ** Options that read alike, and time *)

(** [POST /screenshot] answers alike for options that read alike: "800px",
    " 800" and 800 are the same width, and every [waitUntil] other than
    "load" and "domcontentloaded" is the same [waitUntil]. *)
Theorem options_that_read_alike_are_served_alike :
  forall newURL W url o o',
    parseInt (default_to (JNum (Int 1200)) (o_width o)) =
      parseInt (default_to (JNum (Int 1200)) (o_width o')) ->
    parseInt (default_to (JNum (Int 800)) (o_height o)) =
      parseInt (default_to (JNum (Int 800)) (o_height o')) ->
    parseInt (default_to (JNum (Int 80)) (o_quality o)) =
      parseInt (default_to (JNum (Int 80)) (o_quality o')) ->
    wantsFullPage (o_fullPage o) = wantsFullPage (o_fullPage o') ->
    playwrightWaitUntil (default_to (JStr "networkidle") (o_waitUntil o)) =
      playwrightWaitUntil (default_to (JStr "networkidle") (o_waitUntil o')) ->
    parseInt (default_to (JNum (Int 30000)) (o_timeout o)) =
      parseInt (default_to (JNum (Int 30000)) (o_timeout o')) ->
    postScreenshot newURL W (mkPostBody url (Some o)) =
    postScreenshot newURL W (mkPostBody url (Some o')).
Proof.
  intros newURL W url o o' Hw Hh Hq Hf Hu Ht.
  unfold postScreenshot. cbn [b_url options_of b_options].
  destruct (negb (truthy url)); [reflexivity|].
  destruct (negb (isValidUrl newURL url)); [reflexivity|].
  rewrite (captureScreenshot_ext W url o o'); try assumption; [reflexivity|].
  now rewrite !wantsFullPage_default.
Qed.

(** The calls of a capture are made one after the other, teardown included:
    when all nine are fulfilled the capture returns the image after the sum
    of their latencies, so it is served exactly when that sum is below
    60000 ms. *)
Theorem capture_time_is_sum_of_latencies :
  forall W url o t1 t2 t3 t4 t5 t6 t7 t8 t9 shot img,
    w_launch W = Fulfils t1 tt ->
    w_newContext W (parseInt (default_to (JNum (Int 1200)) (o_width o)))
                   (parseInt (default_to (JNum (Int 800)) (o_height o)))
      = Fulfils t2 tt ->
    w_newPage W = Fulfils t3 tt ->
    w_goto W url
      (playwrightWaitUntil (default_to (JStr "networkidle") (o_waitUntil o)))
      (parseInt (default_to (JNum (Int 30000)) (o_timeout o))) = Fulfils t4 tt ->
    w_screenshot W
      (screenshotOptions (default_to (JNum (Int 1200)) (o_width o))
         (default_to (JNum (Int 800)) (o_height o))
         (default_to (JBool false) (o_fullPage o))) = Fulfils t5 shot ->
    w_webp W shot (parseInt (default_to (JNum (Int 80)) (o_quality o)))
      = Fulfils t6 img ->
    w_pageClose W = Fulfils t7 tt ->
    w_contextClose W = Fulfils t8 tt ->
    w_browserClose W = Fulfils t9 tt ->
    fst (captureScreenshot W url o start) = Normal img /\
    clock (snd (captureScreenshot W url o start)) =
      (t1 + t2 + t3 + t4 + t5 + t6 + t7 + t8 + t9)%N /\
    race (captureScreenshot W url o start) =
      if (t1 + t2 + t3 + t4 + t5 + t6 + t7 + t8 + t9 <? overallTimeoutMs)%N
      then inl img else inr "Screenshot request timeout".
Proof.
  intros W url o t1 t2 t3 t4 t5 t6 t7 t8 t9 shot img
         H1 H2 H3 H4 H5 H6 H7 H8 H9.
  unfold race. explore.
  rewrite H1. cbn [clock trace browser context page fst snd app].
  rewrite H2. cbn [clock trace browser context page fst snd app].
  rewrite H3. cbn [clock trace browser context page fst snd app].
  rewrite H4. cbn [clock trace browser context page fst snd app].
  rewrite H5. cbn [clock trace browser context page fst snd app].
  rewrite H6. cbn [clock trace browser context page fst snd app].
  rewrite H7. cbn [clock trace browser context page fst snd app].
  rewrite H8. cbn [clock trace browser context page fst snd app].
  rewrite H9. cbn [clock trace browser context page fst snd app].
  rewrite N.add_0_l.
  split; [reflexivity|]. split; reflexivity.
Qed.

(** ** The client and the tests *)

Lemma parseInt_or_on_the_wire :
  forall v d,
    d <> 0 ->
    parseInt_or (on_the_wire (or_else v (JNum (Int d)))) d =
    parseInt_or (on_the_wire (chosen v)) d.
Proof.
  intros v d Hd. unfold or_else, chosen.
  destruct (truthy v); [reflexivity|].
  cbn [on_the_wire toString]. unfold parseInt_or.
  cbn [parseInt]. rewrite <- (append_empty (decimal d)).
  rewrite parseIntString_decimal; [|reflexivity|intros F; contradiction].
  destruct (Z.eqb_spec d 0); [contradiction|reflexivity].
Qed.

Lemma parseInt_on_the_wire :
  forall v d,
    parseInt (default_to (JNum (Int d))
                (or_else (on_the_wire (or_else v (JNum (Int d)))) (JNum (Int d)))) =
    parseInt (default_to (JNum (Int d))
                (or_else (on_the_wire (chosen v)) (JNum (Int d)))).
Proof.
  intros v d. unfold or_else at 2, chosen.
  destruct (truthy v); [reflexivity|].
  cbn [on_the_wire toString].
  rewrite !or_else_defined by discriminate.
  unfold or_else. cbn [truthy].
  destruct (decimal d =? "")%string eqn:E.
  - reflexivity.
  - cbn [negb parseInt]. rewrite <- (append_empty (decimal d)).
    apply parseIntString_decimal; [reflexivity|intros _; reflexivity].
Qed.

(** The defaults of the client are those of the server: for the [GET]
    handler it makes no difference whether a request carries the defaults
    [takeScreenshot] fills in or only the options the caller chose. *)
Theorem client_defaults_agree_with_server :
  forall newURL W url options,
    getScreenshot newURL W (query_on_the_wire (client_params url options)) =
    getScreenshot newURL W (query_on_the_wire (chosen_params url options)).
Proof.
  intros newURL W url options.
  unfold getScreenshot, query_on_the_wire, client_params, chosen_params.
  cbn [q_url q_width q_height q_quality q_fullPage q_waitUntil q_timeout].
  rewrite !parseInt_or_on_the_wire by discriminate.
  destruct (negb (truthy (on_the_wire url))); [reflexivity|].
  destruct (negb (isValidUrl newURL (on_the_wire url))); [reflexivity|].
  destruct (_ || _); [reflexivity|].
  destruct (_ || _); [reflexivity|].
  erewrite captureScreenshot_ext; [reflexivity|reflexivity|reflexivity| | | |];
    cbn [o_quality o_fullPage o_waitUntil o_timeout].
  - apply parseInt_on_the_wire.
  - unfold or_else, chosen.
    destruct (truthy (o_fullPage options)); reflexivity.
  - unfold or_else at 2, chosen.
    destruct (truthy (o_waitUntil options)); reflexivity.
  - apply parseInt_on_the_wire.
Qed.

(** The loop counts each test at most once and prints a line for each. *)
Lemma runErrorTests_bound :
  forall makeRequest tests passed,
    (passed <= snd (runErrorTests makeRequest tests passed)
            <= passed + List.length tests)%nat /\
    List.length (fst (runErrorTests makeRequest tests passed)) = List.length tests.
Proof.
  intros makeRequest tests.
  induction tests as [|test rest IH]; intros passed; cbn [runErrorTests].
  - cbn. lia.
  - destruct (makeRequest _) as [code hs data|message].
    + destruct (code =? et_expectedStatus test).
      * specialize (IH (S passed)).
        destruct (runErrorTests makeRequest rest (S passed)) as [out n].
        cbn in *. lia.
      * specialize (IH passed).
        destruct (runErrorTests makeRequest rest passed) as [out n].
        cbn in *. lia.
    + specialize (IH passed).
      destruct (runErrorTests makeRequest rest passed) as [out n].
      cbn in *. lia.
Qed.

(** Whatever the server answers, [testErrorHandling] counts at most as many
    passes as there are error tests, the 3 that [runTests] adds to its total,
    and prints one line for each test after its heading. *)
Theorem error_tests_count_is_bounded :
  forall makeRequest,
    (snd (testErrorHandling makeRequest) <= 3)%nat /\
    List.length (fst (testErrorHandling makeRequest)) = 4%nat.
Proof.
  intros makeRequest. unfold testErrorHandling.
  pose proof (runErrorTests_bound makeRequest errorTests 0) as [B L].
  destruct (runErrorTests makeRequest errorTests 0) as [out n].
  cbn in *. lia.
Qed.

(** The three calls of [errorHandlingExample] fail, as the example expects,
    whatever the browser does: each is answered 400. *)
Theorem client_error_examples_fail_as_expected :
  forall newURL render W,
    newURL (JStr "invalid-url") = None ->
    http_or_https newURL (JStr "https://example.com") ->
    errorHandlingExample newURL render W =
      [ConsoleLog "🔄 Running error handling example...";
       ConsoleLog "Invalid URL test: ✅ Correctly failed";
       ConsoleLog "Missing URL test: ✅ Correctly failed";
       ConsoleLog "Invalid dimensions test: ✅ Correctly failed"].
Proof.
  intros newURL render W Hbad Hok.
  apply isValidUrl_iff in Hok.
  assert (Hinv : isValidUrl newURL (JStr "invalid-url") = false).
  { unfold isValidUrl. now rewrite Hbad. }
  unfold errorHandlingExample, takeScreenshot, getScreenshot.
  cbn [query_on_the_wire client_params no_options on_the_wire toString or_else
       truthy q_url q_width q_height o_width o_height negb String.eqb Z.eqb].
  rewrite Hinv, Hok.
  reflexivity.
Qed.

(** ** These properties at concrete requests *)

Lemma get_viewport_within_bounds_witness :
  In (NewContext (Int 800) (Int 600) userAgent)
     (session (getScreenshot newURL_sample world_fine query_800x600)) /\
  100 <= parseInt_or (q_width query_800x600) 1200 <= 4000.
Proof.
  assert (H : In (NewContext (Int 800) (Int 600) userAgent)
                 (session (getScreenshot newURL_sample world_fine query_800x600))).
  { vm_compute. tauto. }
  split; [exact H|].
  destruct (get_viewport_within_bounds _ _ _ _ _ _ H) as (_ & _ & Hw & _).
  exact Hw.
Defined.

Lemma get_zero_dimension_is_defaulted_witness :
  parseInt (q_width query_width_0) = Int 0 /\
  parseInt (q_height query_height_0px) = Int 0 /\
  getScreenshot newURL_sample world_fine query_width_0 =
    getScreenshot newURL_sample world_fine (with_width JUndefined query_width_0) /\
  getScreenshot newURL_sample world_fine query_height_0px =
    getScreenshot newURL_sample world_fine
      (with_height JUndefined query_height_0px).
Proof.
  split; [reflexivity|]. split; [reflexivity|].
  exact (get_zero_dimension_is_defaulted newURL_sample world_fine
           query_width_0 query_height_0px eq_refl eq_refl).
Defined.

Lemma launch_failure_hides_cause_witness :
  w_launch world_no_browser =
    Rejects 250 "browserType.launch: Executable doesn't exist" /\
  fst (captureScreenshot world_no_browser (JStr "https://example.com")
         options_800x600 start) =
    Thrown "Screenshot failed: Failed to create browser instance".
Proof.
  split; [reflexivity|].
  rewrite (launch_failure_hides_cause world_no_browser
             (JStr "https://example.com") options_800x600 _ _ eq_refl).
  reflexivity.
Defined.




Lemma post_viewport_is_unchecked_witness :
  truthy (JStr "https://example.com") = true /\
  isValidUrl newURL_sample (JStr "https://example.com") = true /\
  w_launch world_fine = Fulfils 400 tt /\
  In (NewContext (Int 5000) (Int 800) userAgent)
     (session (postScreenshot newURL_sample world_fine body_too_wide)).
Proof.
  split; [reflexivity|]. split; [reflexivity|]. split; [reflexivity|].
  exact (post_viewport_is_unchecked newURL_sample world_fine
           (JStr "https://example.com")
           (mkOptions (JNum (Int 5000)) JUndefined JUndefined JUndefined
              JUndefined JUndefined)
           400 eq_refl eq_refl eq_refl).
Defined.


Lemma documented_defaults_are_applied_witness :
  documented_default "quality" = Some (JsNum 80) /\
  param "quality" query_plain = Some JUndefined /\
  getScreenshot newURL_sample world_fine
    (with_param "quality" (query_text (JsNum 80)) query_plain) =
  getScreenshot newURL_sample world_fine query_plain.
Proof.
  split; [reflexivity|]. split; [reflexivity|].
  exact (documented_defaults_are_applied newURL_sample world_fine query_plain
           "quality" (JsNum 80) eq_refl eq_refl).
Defined.

Lemma advertised_endpoints_are_routed_witness :
  (forall x, matches_exactly x x = true) /\
  In "/health" (strings_of (json_get "availableEndpoints" notFoundBody)) /\
  In "POST /screenshot" (keys_of (json_get "endpoints" apiDocs)) /\
  status_of (appRoutes matches_exactly newURL_sample env_sample world_fine
               request_health) <> 404 /\
  status_of (appRoutes matches_exactly newURL_sample env_sample world_fine
               request_post) <> 404.
Proof.
  assert (M : forall x, matches_exactly x x = true).
  { intros x. apply String.eqb_refl. }
  assert (A : In "/health"
                 (strings_of (json_get "availableEndpoints" notFoundBody))).
  { cbn. tauto. }
  assert (K : In "POST /screenshot" (keys_of (json_get "endpoints" apiDocs))).
  { cbn. tauto. }
  split; [exact M|]. split; [exact A|]. split; [exact K|].
  exact (advertised_endpoints_are_routed matches_exactly newURL_sample
           env_sample world_fine request_health request_post
           "/health" "POST /screenshot" M A eq_refl eq_refl K eq_refl eq_refl).
Defined.

Lemma error_tests_pass_in_every_world_witness :
  matches_exactly "/health" "/screenshot" = false /\
  matches_exactly "/screenshot" "/screenshot" = true /\
  newURL_for_tests (JStr "invalid-url") = None /\
  http_or_https newURL_for_tests (JStr "https://example.com") /\
  snd (testErrorHandling
         (serve matches_exactly newURL_for_tests render_nothing env_sample
            world_no_browser)) = 3%nat.
Proof.
  assert (V : http_or_https newURL_for_tests (JStr "https://example.com")).
  { exists (mkURL "https:"). split; [reflexivity|right; reflexivity]. }
  split; [reflexivity|]. split; [reflexivity|]. split; [reflexivity|].
  split; [exact V|].
  rewrite (error_tests_pass_in_every_world matches_exactly newURL_for_tests
             render_nothing env_sample world_no_browser
             eq_refl eq_refl eq_refl V).
  reflexivity.
Defined.

Lemma settled_capture_closes_what_it_opened_witness :
  unsettled (fst (captureScreenshot world_fine (JStr "https://example.com")
                    options_800x600 start)) = false /\
  rejects (w_pageClose world_fine) = false /\
  rejects (w_contextClose world_fine) = false /\
  rejects (w_browserClose world_fine) = false /\
  filter is_close
    (trace (snd (captureScreenshot world_fine (JStr "https://example.com")
                   options_800x600 start))) =
    [PageClose; ContextClose; BrowserClose].
Proof.
  split; [reflexivity|]. split; [reflexivity|]. split; [reflexivity|].
  split; [reflexivity|].
  destruct (settled_capture_closes_what_it_opened world_fine
              (JStr "https://example.com") options_800x600
              eq_refl eq_refl eq_refl eq_refl) as [C _].
  exact C.
Defined.

Lemma teardown_failure_is_swallowed_witness :
  pending (w_pageClose world_page_close_fails) = false /\
  pending (w_contextClose world_page_close_fails) = false /\
  pending (w_browserClose world_page_close_fails) = false /\
  rejects (w_pageClose world_page_close_fails) = true /\
  fst (captureScreenshot world_page_close_fails (JStr "https://example.com")
         options_800x600 start) =
  fst (captureScreenshot (with_clean_teardown world_page_close_fails)
         (JStr "https://example.com") options_800x600 start).
Proof.
  split; [reflexivity|]. split; [reflexivity|]. split; [reflexivity|].
  split; [reflexivity|].
  exact (teardown_failure_is_swallowed world_page_close_fails
           (JStr "https://example.com") options_800x600
           eq_refl eq_refl eq_refl).
Defined.

Lemma rejected_page_close_ends_cleanup_witness :
  w_pageClose world_page_close_fails =
    Rejects 10 "Protocol error (Target.closeTarget): Target closed" /\
  unsettled (fst (captureScreenshot world_page_close_fails
                    (JStr "https://example.com") options_800x600 start)) = false /\
  page (snd (captureScreenshot world_page_close_fails
               (JStr "https://example.com") options_800x600 start)) = true /\
  filter is_close
    (trace (snd (captureScreenshot world_page_close_fails
                   (JStr "https://example.com") options_800x600 start))) =
    [PageClose].
Proof.
  split; [reflexivity|]. split; [reflexivity|]. split; [reflexivity|].
  destruct (rejected_page_close_ends_cleanup world_page_close_fails
              (JStr "https://example.com") options_800x600 _ _
              eq_refl eq_refl eq_refl) as (_ & _ & C & _).
  exact C.
Defined.

Lemma options_that_read_alike_are_served_alike_witness :
  parseInt (o_width options_800x600_text) = parseInt (o_width options_800x600_q85) /\
  parseInt (o_quality options_800x600_text) =
    parseInt (o_quality options_800x600_q85) /\
  postScreenshot newURL_sample world_fine
    (mkPostBody (JStr "https://example.com") (Some options_800x600_text)) =
  postScreenshot newURL_sample world_fine
    (mkPostBody (JStr "https://example.com") (Some options_800x600_q85)).
Proof.
  split; [reflexivity|]. split; [reflexivity|].
  exact (options_that_read_alike_are_served_alike newURL_sample world_fine
           (JStr "https://example.com") options_800x600_text
           options_800x600_q85
           eq_refl eq_refl eq_refl eq_refl eq_refl eq_refl).
Defined.

Lemma capture_time_is_sum_of_latencies_witness :
  w_launch world_fine = Fulfils 400 tt /\
  w_browserClose world_fine = Fulfils 50 tt /\
  clock (snd (captureScreenshot world_fine (JStr "https://example.com")
                options_800x600 start)) = 2200%N.
Proof.
  split; [reflexivity|]. split; [reflexivity|].
  destruct (capture_time_is_sum_of_latencies world_fine
              (JStr "https://example.com") options_800x600
              400 20 30 1500 120 60 10 10 50 png_sample webp_sample
              eq_refl eq_refl eq_refl eq_refl eq_refl eq_refl
              eq_refl eq_refl eq_refl) as (_ & C & _).
  exact C.
Defined.

Lemma client_error_examples_fail_as_expected_witness :
  newURL_for_tests (JStr "invalid-url") = None /\
  http_or_https newURL_for_tests (JStr "https://example.com") /\
  succeeded (takeScreenshot newURL_for_tests render_nothing world_fine
               (JStr "invalid-url") no_options) = false /\
  List.length (errorHandlingExample newURL_for_tests render_nothing world_fine)
    = 4%nat.
Proof.
  assert (V : http_or_https newURL_for_tests (JStr "https://example.com")).
  { exists (mkURL "https:"). split; [reflexivity|right; reflexivity]. }
  split; [reflexivity|]. split; [exact V|]. split; [reflexivity|].
  rewrite (client_error_examples_fail_as_expected newURL_for_tests
             render_nothing world_fine eq_refl V).
  reflexivity.
Defined.
